(** * math_quiz: the request handlers of [server.js]

    A shallow embedding of the Express handlers of the daily-quiz service
    and of the two Mongoose collections they read and write.  Each handler
    is a function from the request (and the clock readings it makes) and
    the database to a response and the next database: one request at a
    time, every persistence call succeeding unless the handler's own input
    makes it throw.

    JavaScript numbers are modelled by the integers they hold exactly
    ([Z]) plus [NaN]; fractions, infinities and rounding above 2^53 are
    outside the model.  A string is held as its UTF-8 bytes. *)

From Stdlib Require Import ZArith String Ascii List Permutation.
From stdpp Require Import base decidable option list strings pretty sorting.

Local Open Scope string_scope.
Local Open Scope Z_scope.

(** ** JavaScript values of a request body *)

Inductive Number : Type :=
  | NaN
  | Int (z : Z).

(** The scalar values a field of a JSON body can hold, and [undefined] for
    a field that is missing. *)
Inductive JsValue : Type :=
  | JUndefined
  | JNull
  | JBool (b : bool)
  | JNum (n : Number)
  | JStr (s : string).

(** [a === b] on numbers: [NaN] is equal to nothing, itself included. *)
Definition Number_strict_eq (a b : Number) : bool :=
  match a, b with
  | Int x, Int y => x =? y
  | _, _ => false
  end.

(** ToBoolean, as used by [!v] and [a && b]. *)
Definition truthy (v : JsValue) : bool :=
  match v with
  | JUndefined | JNull => false
  | JBool b => b
  | JNum NaN => false
  | JNum (Int z) => negb (z =? 0)
  | JStr s => negb (String.eqb s "")
  end.

(** ToString; integers print in decimal (below 10^21, as JavaScript does). *)
Definition ToString (v : JsValue) : string :=
  match v with
  | JUndefined => "undefined"
  | JNull => "null"
  | JBool true => "true"
  | JBool false => "false"
  | JNum NaN => "NaN"
  | JNum (Int z) => pretty z
  | JStr s => s
  end.

(** [v + Date.now()]: concatenation when [v] is a string, addition after
    ToNumber otherwise. *)
Definition js_add_now (v : JsValue) (now : Z) : JsValue :=
  match v with
  | JStr s => JStr (s +:+ pretty now)
  | JNum (Int z) => JNum (Int (z + now))
  | JNum NaN | JUndefined => JNum NaN
  | JNull => JNum (Int now)
  | JBool b => JNum (Int ((if b then 1 else 0) + now))
  end.

(** *** parseInt *)

(** White space skipped before the number: StrWhiteSpaceChar (White Space
    and Line Terminators), read off the UTF-8 bytes of the string.  In one
    byte: TAB, LF, VT, FF, CR, SP. *)
Definition is_white_space (c : ascii) : bool :=
  let n := Z.of_N (N_of_ascii c) in
  ((9 <=? n) && (n <=? 13)) || (n =? 32).

(** In two bytes: U+00A0 (C2 A0). *)
Definition is_white_space2 (c1 c2 : ascii) : bool :=
  let n1 := Z.of_N (N_of_ascii c1) in
  let n2 := Z.of_N (N_of_ascii c2) in
  (n1 =? 194) && (n2 =? 160).

(** In three bytes: U+1680 (E1 9A 80), U+2000 to U+200A (E2 80 80 to 8A),
    U+2028 and U+2029 (E2 80 A8, A9), U+202F (E2 80 AF), U+205F (E2 81 9F),
    U+3000 (E3 80 80) and U+FEFF (EF BB BF). *)
Definition is_white_space3 (c1 c2 c3 : ascii) : bool :=
  let n1 := Z.of_N (N_of_ascii c1) in
  let n2 := Z.of_N (N_of_ascii c2) in
  let n3 := Z.of_N (N_of_ascii c3) in
  ((n1 =? 225) && (n2 =? 154) && (n3 =? 128)) ||
  ((n1 =? 226) && (n2 =? 128) &&
   (((128 <=? n3) && (n3 <=? 138)) || (n3 =? 168) || (n3 =? 169) || (n3 =? 175))) ||
  ((n1 =? 226) && (n2 =? 129) && (n3 =? 159)) ||
  ((n1 =? 227) && (n2 =? 128) && (n3 =? 128)) ||
  ((n1 =? 239) && (n2 =? 187) && (n3 =? 191)).

(** The first bytes of the white space characters of more than one byte. *)
Definition white_space_lead (c : ascii) : bool :=
  let n := Z.of_N (N_of_ascii c) in
  (n =? 194) || (n =? 225) || (n =? 226) || (n =? 227) || (n =? 239).

Fixpoint trim_start (s : string) : string :=
  match s with
  | String c1 s1 =>
      if is_white_space c1 then trim_start s1
      else if white_space_lead c1 then
        match s1 with
        | String c2 s2 =>
            if is_white_space2 c1 c2 then trim_start s2
            else
              match s2 with
              | String c3 s3 =>
                  if is_white_space3 c1 c2 c3 then trim_start s3 else s
              | EmptyString => s
              end
        | EmptyString => s
        end
      else s
  | EmptyString => s
  end.

(** The value of [c] as a digit of the given radix, if it is one. *)
Definition digit_value (radix : Z) (c : ascii) : option Z :=
  let n := Z.of_N (N_of_ascii c) in
  let v :=
    if (48 <=? n) && (n <=? 57) then Some (n - 48)
    else if (97 <=? n) && (n <=? 122) then Some (n - 87)
    else if (65 <=? n) && (n <=? 90) then Some (n - 55)
    else None in
  match v with
  | Some d => if d <? radix then Some d else None
  | None => None
  end.

(** The longest run of radix digits at the front of [s], read as a number
    (the exact integer: a JavaScript number holds it up to 2^53); [acc] is
    [None] until a first digit was seen. *)
Fixpoint parse_digits (radix : Z) (s : string) (acc : option Z) : option Z :=
  match s with
  | String c s' =>
      match digit_value radix c with
      | Some d => parse_digits radix s' (Some (radix * default 0 acc + d))
      | None => acc
      end
  | EmptyString => acc
  end.

(** The sign read off the front of the trimmed string, and the rest. *)
Definition strip_sign (s : string) : Z * string :=
  match s with
  | String "-" r => (-1, r)
  | String "+" r => (1, r)
  | _ => (1, s)
  end.

(** The radix ([0x]/[0X] selects 16, anything else 10), and the rest. *)
Definition strip_radix (s : string) : Z * string :=
  match s with
  | String "0" (String "x" r) => (16, r)
  | String "0" (String "X" r) => (16, r)
  | _ => (10, s)
  end.

(** [parseInt(v)] with no radix argument. *)
Definition parseInt (v : JsValue) : Number :=
  let '(sign, s1) := strip_sign (trim_start (ToString v)) in
  let '(radix, s2) := strip_radix s1 in
  match parse_digits radix s2 None with
  | Some m => Int (sign * m)
  | None => NaN
  end.

(** Whether [parseInt] finds a number to read: after the white space, the
    sign and the radix prefix, the string starts with a digit. *)
Definition starts_with_digit (radix : Z) (s : string) : bool :=
  match s with
  | String c _ => bool_decide (is_Some (digit_value radix c))
  | EmptyString => false
  end.

Definition has_leading_integer (v : JsValue) : bool :=
  let '(_, s1) := strip_sign (trim_start (ToString v)) in
  let '(radix, s2) := strip_radix s1 in
  starts_with_digit radix s2.

(** ** The data model: [UserSchema] and [ProblemSchema] *)

(** A MongoDB ObjectId, as the 96-bit number it holds. *)
Definition ObjectId : Type := N.

(** [a.equals(b)] on ObjectIds. *)
Definition ObjectId_equals (a b : ObjectId) : bool := N.eqb a b.

(** Dates are milliseconds since the epoch; an absent field is [None]. *)
Record User : Type := mkUser {
  _id : ObjectId;
  userId : string;
  name : string;
  password : option string;
  isAdmin : bool;
  score : Z;
  latestQuizDate : option Z
}.

(** One element of [solvers]. *)
Record Solver : Type := mkSolver {
  solver_userId : ObjectId;
  solver_name : string;
  isCorrect : bool;
  solvedAt : Z
}.

Record Problem : Type := mkProblem {
  date : string;
  question : string;
  answer : Z;
  solvers : list Solver
}.

(** The two collections, each in insertion order. *)
Record DB : Type := mkDB {
  Users : list User;
  Problems : list Problem
}.

Definition empty_db : DB := mkDB [] [].

(** ** What the persistence library does with a value *)

(** The outcome of casting a value to a schema type: a value of the type,
    null (null and undefined are let through), or a failed cast. *)
Inductive Cast (A : Type) : Type :=
  | CastOk (a : A)
  | CastNull
  | CastFail.
Arguments CastOk {A} a.
Arguments CastNull {A}.
Arguments CastFail {A}.

(** The errors a persistence call rejects with. *)
Inductive Error : Type :=
  | CastError (path : string)
  | ValidationError (model : string)
  | DuplicateKeyError (index : string).

(** [err.code]: 11000 is the server's duplicate-key code; cast and
    validation errors carry none. *)
Definition code (e : Error) : option Z :=
  match e with
  | DuplicateKeyError _ => Some 11000
  | _ => None
  end.

Inductive Result (A : Type) : Type :=
  | Ok (a : A)
  | Throw (e : Error).
Arguments Ok {A} a.
Arguments Throw {A} e.

(** The casts of the schema types the two schemas use, and the text of an
    error's [message]: library behaviour, which the handlers rely on but do
    not define. *)
Class Mongoose : Type := {
  castObjectId : JsValue -> Cast ObjectId;
  castString : JsValue -> Cast string;
  castNumber : JsValue -> Cast Z;
  message : Error -> string
}.

(** *** The usual casts, on the values of the model *)

Definition hex_value (c : ascii) : option N :=
  match digit_value 16 c with
  | Some d => Some (Z.to_N d)
  | None => None
  end.

Fixpoint hex_to_N (s : string) (acc : N) : option N :=
  match s with
  | String c s' =>
      match hex_value c with
      | Some d => hex_to_N s' (16 * acc + d)%N
      | None => None
      end
  | EmptyString => Some acc
  end.

(** A string of 24 hexadecimal digits is an ObjectId; null and undefined
    stay null; everything else fails to cast. *)
Definition castObjectId_hex24 (v : JsValue) : Cast ObjectId :=
  match v with
  | JUndefined | JNull => CastNull
  | JStr s =>
      if Nat.eqb (String.length s) 24 then
        match hex_to_N s 0 with
        | Some n => CastOk n
        | None => CastFail
        end
      else CastFail
  | _ => CastFail
  end.

Definition castString_default (v : JsValue) : Cast string :=
  match v with
  | JUndefined | JNull => CastNull
  | v => CastOk (ToString v)
  end.

Fixpoint all_decimal (s : string) : bool :=
  match s with
  | String c s' =>
      match digit_value 10 c with
      | Some _ => all_decimal s'
      | None => false
      end
  | EmptyString => true
  end.

(** The number a string spells when it is, as a whole, a run of decimal
    digits with an optional sign. *)
Definition decimal_literal (s : string) : option Z :=
  let '(sign, s1) := strip_sign s in
  if all_decimal s1 then
    match parse_digits 10 s1 None with
    | Some m => Some (sign * m)
    | None => None
    end
  else None.

(** Numbers as they are, booleans as 0 and 1, the empty string as null, and
    strings that spell a decimal integer (the other numeric spellings are
    not covered here). *)
Definition castNumber_default (v : JsValue) : Cast Z :=
  match v with
  | JUndefined | JNull => CastNull
  | JBool b => CastOk (if b then 1 else 0)
  | JNum (Int z) => CastOk z
  | JNum NaN => CastFail
  | JStr s =>
      if String.eqb s "" then CastNull
      else match decimal_literal s with
           | Some z => CastOk z
           | None => CastFail
           end
  end.

(** Decimal digits with at most one point among them, and at least one
    digit. *)
Fixpoint numeral_body (s : string) (point_seen digit_seen : bool) : bool :=
  match s with
  | String c s' =>
      match digit_value 10 c with
      | Some _ => numeral_body s' point_seen true
      | None =>
          if Ascii.eqb c "." && negb point_seen
          then numeral_body s' true digit_seen
          else false
      end
  | EmptyString => digit_seen
  end.

(** A numeric submission, in the words of the specification: a number, or
    a string that as a whole spells one (white space, an optional sign, a
    decimal numeral). *)
Definition numeric_submission (v : JsValue) : bool :=
  match v with
  | JNum (Int _) => true
  | JStr s => numeral_body (snd (strip_sign (trim_start s))) false false
  | _ => false
  end.

(** The usual casts together; the message texts stand for the library's,
    which are longer. *)
Definition mongoose_default : Mongoose := {|
  castObjectId := castObjectId_hex24;
  castString := castString_default;
  castNumber := castNumber_default;
  message := fun e =>
    match e with
    | CastError path => "Cast failed at path " +:+ path
    | ValidationError model => model +:+ " validation failed"
    | DuplicateKeyError index => "E11000 duplicate key error index: " +:+ index
    end
|}.

(** ** Responses *)

Inductive Body : Type :=
  | Text (s : string)
  | UserJson (u : User)
  | UsersJson (us : list User)
  | ProblemJson (p : Problem)
  | ProblemsJson (ps : list Problem)
  | SolveJson (success : bool) (isCorrect : bool) (newScore : Z).

Record Response : Type := mkResponse {
  status : Z;
  body : Body
}.

(** [const { password, ...userData } = user.toObject()] and
    [.select('-password')]: the record without its password field. *)
Definition without_password (u : User) : User :=
  mkUser (_id u) (userId u) (name u) None (isAdmin u) (score u)
         (latestQuizDate u).

(** [name === '...']: a string equal to the literal. *)
Definition is_string (v : JsValue) (lit : string) : bool :=
  match v with
  | JStr s => String.eqb s lit
  | _ => false
  end.

(** A filter [{field: c}] against a stored optional string: null matches
    the absent field. *)
Definition field_matches (c : Cast string) (stored : option string) : bool :=
  match c, stored with
  | CastOk s, Some t => String.eqb s t
  | CastNull, None => true
  | _, _ => false
  end.

(** ** Leaderboard order: [{ score: -1, latestQuizDate: 1 }] *)

(** Ascending dates; an absent date sorts before every date. *)
Definition date_asc (a b : option Z) : Prop :=
  match a, b with
  | None, _ => True
  | Some _, None => False
  | Some x, Some y => x <= y
  end.

#[export] Instance date_asc_dec a b : Decision (date_asc a b).
Proof. destruct a, b; simpl; apply _. Defined.

(** [u] may stand before [v]: a higher score, or the same score and a date
    that is not later. *)
Definition leaderboard_order (u v : User) : Prop :=
  score v < score u \/
  (score u = score v /\ date_asc (latestQuizDate u) (latestQuizDate v)).

#[export] Instance leaderboard_order_dec : RelDecision leaderboard_order.
Proof. intros u v. unfold leaderboard_order. apply _. Defined.

(** [{ date: -1 }]: descending by the bytes of the date string. *)
Definition date_desc (p q : Problem) : Prop :=
  String.leb (date q) (date p) = true.

#[export] Instance date_desc_dec : RelDecision date_desc.
Proof. intros p q. unfold date_desc. apply _. Defined.

(** ** The handlers *)

Section Handlers.
Context `{Mongoose}.

Definition send (st : Z) (text : string) : Response := mkResponse st (Text text).

(** *** Queries and writes on the two models *)

(** [User.findOne({ name })]: the first user of that name. *)
Definition User_findOne_name (vname : JsValue) (db : DB) : Result (option User) :=
  match castString vname with
  | CastFail => Throw (CastError "name")
  | CastNull => Ok None
  | CastOk n => Ok (snd <$> list_find (fun u => name u = n) (Users db))
  end.

(** [User.findById(id)]: the user with that [_id] and its place in the
    collection; a value that does not cast to an ObjectId rejects. *)
Definition User_findById (id : JsValue) (db : DB) : Result (option (nat * User)) :=
  match castObjectId id with
  | CastFail => Throw (CastError "_id")
  | CastNull => Ok None
  | CastOk oid => Ok (list_find (fun u => _id u = oid) (Users db))
  end.

(** [Problem.findOne({ date })], for the string of the route. *)
Definition Problem_findOne (d : string) (db : DB) : option (nat * Problem) :=
  list_find (fun p => date p = d) (Problems db).

(** [User.create(...)]: cast and validate the two required strings, fill
    in the defaults, and insert under the unique indexes on [_id] and
    [userId]. *)
Definition User_create (newId : ObjectId) (vname vuserId : JsValue)
    (pw : option string) (admin : bool) (db : DB) : Result (User * DB) :=
  match castString vname, castString vuserId with
  | CastOk n, CastOk uid =>
      if String.eqb n "" || String.eqb uid "" then Throw (ValidationError "User")
      else if existsb (fun u => ObjectId_equals (_id u) newId) (Users db)
      then Throw (DuplicateKeyError "_id")
      else if existsb (fun u => String.eqb (userId u) uid) (Users db)
      then Throw (DuplicateKeyError "userId")
      else
        let user := mkUser newId uid n pw admin 0 None in
        Ok (user, mkDB (Users db ++ [user]) (Problems db))
  | _, _ => Throw (ValidationError "User")
  end.

(** The document [Problem.create] builds from its three fields, each cast
    and required; [solvers] starts empty. *)
Definition Problem_validate (vdate vquestion vanswer : JsValue) : Result Problem :=
  match castString vdate, castString vquestion, castNumber vanswer with
  | CastOk d, CastOk q, CastOk a =>
      if String.eqb d "" || String.eqb q "" then Throw (ValidationError "Problem")
      else Ok (mkProblem d q a [])
  | _, _, _ => Throw (ValidationError "Problem")
  end.

(** [Problem.create({ date, question, answer })]: validate, then insert
    under the unique index on [date]. *)
Definition Problem_create (vdate vquestion vanswer : JsValue) (db : DB)
    : Result (Problem * DB) :=
  match Problem_validate vdate vquestion vanswer with
  | Throw err => Throw err
  | Ok problem =>
      if existsb (fun p => String.eqb (date p) (date problem)) (Problems db)
      then Throw (DuplicateKeyError "date")
      else Ok (problem, mkDB (Users db) (Problems db ++ [problem]))
  end.

(** [problem.save()] and [user.save()]: the document found at place [i]
    is replaced. *)
Definition Problem_save (i : nat) (p : Problem) (db : DB) : DB :=
  mkDB (Users db) (<[i := p]> (Problems db)).

Definition User_save (j : nat) (u : User) (db : DB) : DB :=
  mkDB (<[j := u]> (Users db)) (Problems db).

(** [problem.solvers.push(s)] *)
Definition push_solver (p : Problem) (s : Solver) : Problem :=
  mkProblem (date p) (question p) (answer p) (solvers p ++ [s]).

(** *** POST /api/users/login *)

Definition login (now : Z) (newId : ObjectId) (vname isAdminInit : JsValue)
    (db : DB) : Response * DB :=
  if negb (truthy vname) then (send 400 "이름을 입력해주세요.", db)
  else
    match User_findOne_name vname db with
    | Throw err => (send 500 (message err), db)
    | Ok (Some user) => (mkResponse 200 (UserJson (without_password user)), db)
    | Ok None =>
        let created :=
          if is_string vname "관리자" && truthy isAdminInit
          then User_create newId vname (JStr "1234aa") (Some "wj211@") true db
          else User_create newId vname (js_add_now vname now) None false db in
        match created with
        | Throw err => (send 500 (message err), db)
        | Ok (user, db') =>
            (mkResponse 200 (UserJson (without_password user)), db')
        end
    end.

(** *** POST /api/admin/auth *)

Definition admin_auth (id pw : JsValue) (db : DB) : Response * DB :=
  match castString id, castString pw with
  | CastFail, _ => (send 500 (message (CastError "userId")), db)
  | _, CastFail => (send 500 (message (CastError "password")), db)
  | cid, cpw =>
      match List.find (fun u => field_matches cid (Some (userId u)) &&
                                field_matches cpw (password u) &&
                                isAdmin u) (Users db) with
      | Some user => (mkResponse 200 (UserJson (without_password user)), db)
      | None => (send 401 "인증 실패", db)
      end
  end.

(** *** GET /api/users *)

Definition list_leaderboard (db : DB) : list User :=
  without_password <$>
    merge_sort leaderboard_order
      (filter (fun u => isAdmin u = false) (Users db)).

Definition get_users (db : DB) : Response * DB :=
  (mkResponse 200 (UsersJson (list_leaderboard db)), db).

(** *** GET /api/problems *)

Definition get_problems (db : DB) : Response * DB :=
  (mkResponse 200 (ProblemsJson (merge_sort date_desc (Problems db))), db).

(** *** POST /api/problems *)

Definition create_problem (vdate vquestion vanswer : JsValue) (db : DB)
    : Response * DB :=
  if negb (truthy vdate) || negb (truthy vquestion) || negb (truthy vanswer)
  then (send 400 "모든 필드를 입력해야 합니다.", db)
  else
    match Problem_create vdate vquestion vanswer db with
    | Ok (newProblem, db') => (mkResponse 201 (ProblemJson newProblem), db')
    | Throw err =>
        match code err with
        | Some 11000 => (send 409 "이미 해당 날짜의 퀴즈가 존재합니다.", db)
        | _ => (send 500 (message err), db)
        end
    end.

(** *** POST /api/problems/:date/solve *)

(** [t_solved] and [t_latest] are the two readings of [new Date()]. *)
Definition solve (t_solved t_latest : Z) (d : string) (vuserId vanswer : JsValue)
    (db : DB) : Response * DB :=
  let problem := Problem_findOne d db in
  match User_findById vuserId db with
  | Throw err => (send 500 (message err), db)
  | Ok user =>
      match problem, user with
      | Some (i, problem), Some (j, user) =>
          let alreadySolved :=
            existsb (fun s => ObjectId_equals (solver_userId s) (_id user))
                    (solvers problem) in
          if alreadySolved then (send 400 "이미 이 퀴즈를 풀었습니다.", db)
          else
            let isCorrect :=
              Number_strict_eq (Int (answer problem)) (parseInt vanswer) in
            let problem' :=
              push_solver problem
                (mkSolver (_id user) (name user) isCorrect t_solved) in
            let db1 := Problem_save i problem' db in
            if isCorrect then
              let user' :=
                mkUser (_id user) (userId user) (name user) (password user)
                       (isAdmin user) (score user + 1) (Some t_latest) in
              let db2 := User_save j user' db1 in
              (mkResponse 200 (SolveJson true isCorrect (score user')), db2)
            else
              (mkResponse 200 (SolveJson true isCorrect (score user)), db1)
      | _, _ => (send 404 "퀴즈 또는 사용자를 찾을 수 없습니다.", db)
      end
  end.

(** *** The service, one request at a time *)

Inductive Request : Type :=
  | PostLogin (now : Z) (newId : ObjectId) (vname isAdminInit : JsValue)
  | PostAdminAuth (id pw : JsValue)
  | GetUsers
  | GetProblems
  | PostProblem (vdate vquestion vanswer : JsValue)
  | PostSolve (t_solved t_latest : Z) (d : string) (vuserId vanswer : JsValue).

Definition handle (req : Request) (db : DB) : Response * DB :=
  match req with
  | PostLogin now newId vname isAdminInit => login now newId vname isAdminInit db
  | PostAdminAuth id pw => admin_auth id pw db
  | GetUsers => get_users db
  | GetProblems => get_problems db
  | PostProblem vdate vquestion vanswer => create_problem vdate vquestion vanswer db
  | PostSolve t1 t2 d vuserId vanswer => solve t1 t2 d vuserId vanswer db
  end.

(** The databases the service can be in, starting from empty collections. *)
Inductive reachable : DB -> Prop :=
  | reachable_empty : reachable empty_db
  | reachable_step req db :
      reachable db -> reachable (snd (handle req db)).

(** At most one solver record per user id, in every quiz. *)
Definition one_record_per_user (db : DB) : Prop :=
  Forall (fun p => NoDup (solver_userId <$> solvers p)) (Problems db).

End Handlers.

(** ** A small database to run the handlers on *)

Module Demo.

Definition alice_hex : string := "507f1f77bcf86cd799439011".
Definition alice_id : ObjectId := Eval vm_compute in default 0%N (hex_to_N alice_hex 0).
Definition admin_id : ObjectId := Eval vm_compute in (alice_id + 1)%N.
Definition bob_id : ObjectId := Eval vm_compute in (alice_id + 2)%N.

(** The requests that set the service up: Alice logs in, the administrator
    is seeded, a quiz is posted. *)
Definition setup : list Request :=
  [ PostLogin 1735689600000 alice_id (JStr "alice") JUndefined;
    PostLogin 1735689600001 admin_id (JStr "관리자") (JBool true);
    PostProblem (JStr "2025-01-01") (JStr "3 + 4 = ?") (JNum (Int 7)) ].

Definition run `{Mongoose} (reqs : list Request) (db : DB) : DB :=
  fold_left (fun db req => snd (handle req db)) reqs db.

Definition db0 : DB := Eval vm_compute in run (H := mongoose_default) setup empty_db.

Definition alice : User :=
  mkUser alice_id "alice1735689600000" "alice" None false 0 None.

Definition quiz : Problem := mkProblem "2025-01-01" "3 + 4 = ?" 7 [].

(** An ObjectId that no user has. *)
Definition bob_hex : string := "507f1f77bcf86cd799439013".

(** Alice answers the quiz of 2025-01-01 with 7. *)
Definition alice_solves : Request :=
  PostSolve 1735700000000 1735700000001 "2025-01-01" (JStr alice_hex) (JStr "7").

Definition db1 : DB :=
  Eval vm_compute in snd (handle (H := mongoose_default) alice_solves db0).

Definition alice1 : User :=
  mkUser alice_id "alice1735689600000" "alice" None false 1 (Some 1735700000001).

Definition quiz1 : Problem :=
  mkProblem "2025-01-01" "3 + 4 = ?" 7
    [mkSolver alice_id "alice" true 1735700000000].

(** Users with scores and dates to rank. *)
Definition carol : User := mkUser 11%N "carol1" "carol" None false 2 (Some 50).
Definition dave : User := mkUser 12%N "dave2" "dave" None false 2 (Some 40).
Definition erin : User := mkUser 13%N "erin3" "erin" (Some "pw") false 3 None.
Definition root : User := mkUser 14%N "1234aa" "관리자" (Some "wj211@") true 9 (Some 10).
Definition frank : User := mkUser 15%N "frank5" "frank" None false 0 None.

Definition board : DB := mkDB [carol; dave; erin; root; frank] [].

End Demo.

(** ** What the collections keep from request to request *)

(** The values [!v] is true of. *)
Definition falsy_values : list JsValue :=
  [JUndefined; JNull; JBool false; JNum NaN; JNum (Int 0); JStr ""].

(** The user records a response body carries. *)
Definition body_users (b : Body) : list User :=
  match b with
  | UserJson u => [u]
  | UsersJson us => us
  | _ => []
  end.

(** The solver records of [p] that say user [oid] answered correctly. *)
Definition correct_in (oid : ObjectId) (p : Problem) : nat :=
  length (filter (fun s => solver_userId s = oid /\ isCorrect s = true)
                 (solvers p)).

(** The same, over every quiz. *)
Definition correct_count (oid : ObjectId) (db : DB) : nat :=
  sum_list (correct_in oid <$> Problems db).

(** The unique indexes ([_id], [userId], [date]) hold, and no two users
    share a name. *)
Definition unique_keys (db : DB) : Prop :=
  NoDup (_id <$> Users db) /\
  NoDup (userId <$> Users db) /\
  NoDup (name <$> Users db) /\
  NoDup (date <$> Problems db).

(** Every solver record is that of a stored user, under the user's name. *)
Definition solvers_known (db : DB) : Prop :=
  forall p s, p ∈ Problems db -> s ∈ solvers p ->
    exists u, u ∈ Users db /\ _id u = solver_userId s /\ name u = solver_name s.

(** Every user's score is the number of quizzes the records say the user
    answered correctly. *)
Definition scores_counted (db : DB) : Prop :=
  forall u, u ∈ Users db -> score u = Z.of_nat (correct_count (_id u) db).

(** A stored user one request later: the same identity and credentials,
    the score the same or one more. *)
Definition user_kept (u u' : User) : Prop :=
  _id u' = _id u /\ userId u' = userId u /\ name u' = name u /\
  password u' = password u /\ isAdmin u' = isAdmin u /\
  score u <= score u' <= score u + 1.

(** A stored quiz one request later: the same date, question and answer,
    the solvers it had and possibly more after them. *)
Definition problem_kept (p p' : Problem) : Prop :=
  date p' = date p /\ question p' = question p /\ answer p' = answer p /\
  solvers p `prefix_of` solvers p'.

(** Nothing is deleted or rewritten between [db] and [db']. *)
Definition grows (db db' : DB) : Prop :=
  (forall k u, Users db !! k = Some u ->
     exists u', Users db' !! k = Some u' /\ user_kept u u') /\
  (forall k p, Problems db !! k = Some p ->
     exists p', Problems db' !! k = Some p' /\ problem_kept p p').

(** ** Properties of the handlers *)

Section Properties.
Context `{Mongoose}.

(** *** The queries *)

Lemma alreadySolved_iff (oid : ObjectId) (l : list Solver) :
  existsb (fun s => ObjectId_equals (solver_userId s) oid) l = true <->
  oid ∈ solver_userId <$> l.
Proof.
  induction l as [|s l IH]; simpl.
  - split; [done|]. intros Hin. by apply elem_of_nil in Hin.
  - rewrite orb_true_iff, IH, elem_of_cons. unfold ObjectId_equals.
    rewrite N.eqb_eq. split; (intros [Heq|Hin]; [left; congruence | by right]).
Qed.

Lemma alreadySolved_false (oid : ObjectId) (l : list Solver) :
  oid ∉ solver_userId <$> l ->
  existsb (fun s => ObjectId_equals (solver_userId s) oid) l = false.
Proof.
  intros Hnot. apply not_true_iff_false. by rewrite alreadySolved_iff.
Qed.

Lemma Number_strict_eq_Int (a b : Z) :
  Number_strict_eq (Int a) (Int b) = true <-> a = b.
Proof. simpl. apply Z.eqb_eq. Qed.

Lemma Number_strict_eq_NaN (a : Number) : Number_strict_eq a NaN = false.
Proof. by destruct a. Qed.

Lemma Number_strict_eq_neq (a : Z) (n : Number) :
  n <> Int a -> Number_strict_eq (Int a) n = false.
Proof.
  destruct n as [|b]; simpl; [done|].
  intros Hne. apply Z.eqb_neq. congruence.
Qed.

Lemma Problem_findOne_lookup d db i p :
  Problem_findOne d db = Some (i, p) -> Problems db !! i = Some p /\ date p = d.
Proof.
  unfold Problem_findOne. intros (Hi & Hd & _)%list_find_Some. by split.
Qed.

Lemma User_findById_lookup vuserId db j u :
  User_findById vuserId db = Ok (Some (j, u)) ->
  Users db !! j = Some u /\ castObjectId vuserId = CastOk (_id u).
Proof.
  unfold User_findById. destruct (castObjectId vuserId) as [oid| |]; [|done..].
  intros [= Hfind]. apply list_find_Some in Hfind as (Hj & Hid & _).
  split; [done|]. by rewrite Hid.
Qed.

(** *** Solving a quiz *)

(** What [solve] does once the quiz and the user are found and the user is
    not among the solvers: the verdict is the comparison, the record is
    appended, and only a correct answer touches the user. *)
Lemma solve_fresh t1 t2 d vuserId vanswer db i p j u :
  Problem_findOne d db = Some (i, p) ->
  User_findById vuserId db = Ok (Some (j, u)) ->
  _id u ∉ solver_userId <$> solvers p ->
  let verdict := Number_strict_eq (Int (answer p)) (parseInt vanswer) in
  let db1 := Problem_save i (push_solver p (mkSolver (_id u) (name u) verdict t1)) db in
  solve t1 t2 d vuserId vanswer db =
    if verdict then
      (mkResponse 200 (SolveJson true true (score u + 1)),
       User_save j (mkUser (_id u) (userId u) (name u) (password u) (isAdmin u)
                           (score u + 1) (Some t2)) db1)
    else (mkResponse 200 (SolveJson true false (score u)), db1).
Proof.
  intros Hp Hu Hnew verdict db1. subst db1 verdict.
  unfold solve. rewrite Hp, Hu.
  rewrite (alreadySolved_false _ _ Hnew). cbv beta iota zeta.
  by destruct (Number_strict_eq (Int (answer p)) (parseInt vanswer)).
Qed.

(** C1. A correct answer by a user who has not solved the quiz yet appends
    a solver record with [isCorrect = true], stores the user with the score
    raised by exactly 1 and a non-null [latestQuizDate], and answers
    [{success: true, isCorrect: true, newScore: score + 1}]. *)
Theorem solve_correct_scores t1 t2 d vuserId vanswer db i p j u :
  Problem_findOne d db = Some (i, p) ->
  User_findById vuserId db = Ok (Some (j, u)) ->
  _id u ∉ solver_userId <$> solvers p ->
  parseInt vanswer = Int (answer p) ->
  exists db',
    solve t1 t2 d vuserId vanswer db =
      (mkResponse 200 (SolveJson true true (score u + 1)), db') /\
    Problems db' !! i =
      Some (mkProblem (date p) (question p) (answer p)
              (solvers p ++ [mkSolver (_id u) (name u) true t1])) /\
    (forall k, k <> i -> Problems db' !! k = Problems db !! k) /\
    Users db' !! j =
      Some (mkUser (_id u) (userId u) (name u) (password u) (isAdmin u)
                   (score u + 1) (Some t2)) /\
    (forall k, k <> j -> Users db' !! k = Users db !! k).
Proof.
  intros Hp Hu Hnew Hparse.
  pose proof (solve_fresh t1 t2 d vuserId vanswer db i p j u Hp Hu Hnew) as Hs.
  cbv zeta in Hs. rewrite Hparse in Hs.
  rewrite (proj2 (Number_strict_eq_Int _ _) eq_refl) in Hs.
  apply Problem_findOne_lookup in Hp as [Hi _].
  apply User_findById_lookup in Hu as [Hj _].
  eexists. split; [exact Hs|]. simpl. split_and!.
  - apply list_lookup_insert_eq. by eapply lookup_lt_Some.
  - intros k Hk. by apply list_lookup_insert_ne.
  - apply list_lookup_insert_eq. by eapply lookup_lt_Some.
  - intros k Hk. by apply list_lookup_insert_ne.
Qed.

(** C3. A wrong answer by a user who has not solved the quiz yet appends a
    solver record with [isCorrect = false] and changes nothing else: the
    users are as they were, the quiz keeps its date, question, answer and
    earlier solvers, the other quizzes are untouched, and the response is
    [{success: true, isCorrect: false, newScore: score}]. *)
Theorem solve_wrong_answer_frame t1 t2 d vuserId vanswer db i p j u :
  Problem_findOne d db = Some (i, p) ->
  User_findById vuserId db = Ok (Some (j, u)) ->
  _id u ∉ solver_userId <$> solvers p ->
  parseInt vanswer <> Int (answer p) ->
  exists db',
    solve t1 t2 d vuserId vanswer db =
      (mkResponse 200 (SolveJson true false (score u)), db') /\
    Users db' = Users db /\
    Users db' !! j = Some u /\
    Problems db' !! i =
      Some (mkProblem (date p) (question p) (answer p)
              (solvers p ++ [mkSolver (_id u) (name u) false t1])) /\
    length (Problems db') = length (Problems db) /\
    (forall k, k <> i -> Problems db' !! k = Problems db !! k).
Proof.
  intros Hp Hu Hnew Hparse.
  pose proof (solve_fresh t1 t2 d vuserId vanswer db i p j u Hp Hu Hnew) as Hs.
  cbv zeta in Hs. rewrite (Number_strict_eq_neq _ _ Hparse) in Hs.
  apply Problem_findOne_lookup in Hp as [Hi _].
  apply User_findById_lookup in Hu as [Hj _].
  eexists. split; [exact Hs|]. simpl. split_and!; try done.
  - apply list_lookup_insert_eq. by eapply lookup_lt_Some.
  - apply length_insert.
  - intros k Hk. by apply list_lookup_insert_ne.
Qed.

(** The solvers of a quiz stay distinct when a user who is not among them
    is appended. *)
Lemma push_solver_NoDup p s :
  NoDup (solver_userId <$> solvers p) ->
  solver_userId s ∉ solver_userId <$> solvers p ->
  NoDup (solver_userId <$> solvers (push_solver p s)).
Proof.
  intros Hnd Hnew. simpl. rewrite fmap_app. apply NoDup_app.
  split_and!; [done| |apply NoDup_singleton].
  intros x Hx [->|Hnil]%elem_of_cons; [done|]. by apply elem_of_nil in Hnil.
Qed.

Lemma User_create_Ok newId vname vuserId pw admin db user db' :
  User_create newId vname vuserId pw admin db = Ok (user, db') ->
  castString vname = CastOk (name user) /\
  _id user = newId /\ score user = 0 /\
  Users db' = (Users db ++ [user])%list /\ Problems db' = Problems db.
Proof.
  unfold User_create.
  destruct (castString vname) as [n| |]; [|done..].
  destruct (castString vuserId) as [uid| |]; [|done..].
  repeat case_match; try done. by intros [= <- <-].
Qed.

Lemma login_Problems now newId vname isAdminInit db :
  Problems (snd (login now newId vname isAdminInit db)) = Problems db.
Proof.
  unfold login. destruct (negb (truthy vname)); [done|].
  destruct (User_findOne_name vname db) as [[user|]|err]; [done| |done].
  match goal with
  | |- context [match ?c with Ok _ => _ | Throw _ => _ end] =>
      destruct c as [[user db']|err] eqn:Hc; [|done]
  end.
  simpl. destruct (is_string vname "관리자" && truthy isAdminInit);
    by apply User_create_Ok in Hc as (_ & _ & _ & _ & ->).
Qed.

Lemma admin_auth_db id pw db : snd (admin_auth id pw db) = db.
Proof. unfold admin_auth. by repeat (case_match; simpl). Qed.

Lemma create_problem_one_record vdate vquestion vanswer db :
  one_record_per_user db ->
  one_record_per_user (snd (create_problem vdate vquestion vanswer db)).
Proof.
  intros Hinv. unfold create_problem, Problem_create, Problem_validate.
  repeat (case_match; simpl; try done); simplify_eq.
  unfold one_record_per_user. simpl. apply Forall_app. split; [done|].
  apply Forall_singleton. simpl. apply NoDup_nil_2.
Qed.

Lemma solve_one_record t1 t2 d vuserId vanswer db :
  one_record_per_user db ->
  one_record_per_user (snd (solve t1 t2 d vuserId vanswer db)).
Proof.
  intros Hinv. unfold solve.
  destruct (User_findById vuserId db) as [[[j u]|]|err] eqn:Hu;
    destruct (Problem_findOne d db) as [[i p]|] eqn:Hp; try done.
  destruct (existsb _ (solvers p)) eqn:Hsolved; [done|].
  assert (_id u ∉ solver_userId <$> solvers p) as Hnew.
  { rewrite <- alreadySolved_iff. by rewrite Hsolved. }
  apply Problem_findOne_lookup in Hp as [Hi _].
  assert (NoDup (solver_userId <$> solvers p)) as Hnd.
  { by apply (Forall_lookup_1 _ _ _ _ Hinv Hi). }
  cbv zeta.
  destruct (Number_strict_eq (Int (answer p)) (parseInt vanswer));
    unfold one_record_per_user; simpl;
    (apply Forall_insert; [done|]); by apply push_solver_NoDup.
Qed.

Lemma handle_one_record req db :
  one_record_per_user db -> one_record_per_user (snd (handle req db)).
Proof.
  intros Hinv. destruct req; simpl.
  - unfold one_record_per_user. by rewrite login_Problems.
  - by rewrite admin_auth_db.
  - done.
  - done.
  - by apply create_problem_one_record.
  - by apply solve_one_record.
Qed.

(** C2. A user who already has a record in the quiz's solvers is turned
    away with the already-solved error and the database is left as it was;
    and every request keeps at most one solver record per user id in every
    quiz, so that holds in every database the service reaches. *)
Theorem solve_once_per_user :
  (forall t1 t2 d vuserId vanswer db i p j u,
     Problem_findOne d db = Some (i, p) ->
     User_findById vuserId db = Ok (Some (j, u)) ->
     _id u ∈ solver_userId <$> solvers p ->
     solve t1 t2 d vuserId vanswer db =
       (send 400 "이미 이 퀴즈를 풀었습니다.", db)) /\
  (forall req db,
     one_record_per_user db -> one_record_per_user (snd (handle req db))) /\
  (forall db, reachable db -> one_record_per_user db).
Proof.
  split_and!.
  - intros t1 t2 d vuserId vanswer db i p j u Hp Hu Hin.
    unfold solve. rewrite Hp, Hu.
    apply alreadySolved_iff in Hin. by rewrite Hin.
  - apply handle_one_record.
  - induction 1 as [|req db _ IH].
    + apply Forall_nil_2.
    + by apply handle_one_record.
Qed.

(** C4 (amended). When the user id casts (to an ObjectId or to null) and
    the quiz or the user is not found, [solve] answers 404 and leaves the
    database as it was. *)
Theorem solve_not_found t1 t2 d vuserId vanswer db :
  castObjectId vuserId <> CastFail ->
  Problem_findOne d db = None \/ User_findById vuserId db = Ok None ->
  solve t1 t2 d vuserId vanswer db =
    (send 404 "퀴즈 또는 사용자를 찾을 수 없습니다.", db).
Proof.
  intros Hcast Habsent. unfold solve.
  destruct (User_findById vuserId db) as [[[j u]|]|err] eqn:Hu.
  - destruct Habsent as [-> | [=]]. done.
  - by destruct (Problem_findOne d db) as [[i p]|].
  - unfold User_findById in Hu.
    by destruct (castObjectId vuserId).
Qed.


(** *** Creating a quiz *)

(** A field that is missing fails the presence check. *)
Lemma create_problem_missing_field vdate vquestion vanswer db :
  vdate = JUndefined \/ vquestion = JUndefined \/ vanswer = JUndefined ->
  create_problem vdate vquestion vanswer db =
    (send 400 "모든 필드를 입력해야 합니다.", db).
Proof.
  unfold create_problem. intros [-> | [-> | ->]]; simpl;
    rewrite ?orb_true_r; done.
Qed.

(** C5 (the code at the failing input). An answer of 0 is present, yet the
    presence check turns the request away with the validation error, before
    any insertion is attempted. *)
Theorem create_problem_answer_zero_rejected vdate vquestion db :
  create_problem vdate vquestion (JNum (Int 0)) db =
    (send 400 "모든 필드를 입력해야 합니다.", db).
Proof. unfold create_problem. simpl. by rewrite orb_true_r. Qed.

Lemma Problem_findOne_existsb d db i p :
  Problem_findOne d db = Some (i, p) ->
  existsb (fun q => String.eqb (date q) d) (Problems db) = true.
Proof.
  intros [Hi Hd]%Problem_findOne_lookup. apply existsb_exists.
  exists p. split.
  - apply list_elem_of_In. by eapply list_elem_of_lookup_2.
  - by apply String.eqb_eq.
Qed.

Lemma Problem_validate_date vdate vquestion vanswer d newProblem :
  castString vdate = CastOk d ->
  Problem_validate vdate vquestion vanswer = Ok newProblem ->
  date newProblem = d.
Proof.
  unfold Problem_validate. intros ->.
  repeat case_match; try done. by intros [= <-].
Qed.

(** C6 (amended). A create request for a date that already has a quiz
    fails (it is never answered 201) and leaves the database as it was, so
    the stored quiz is still found with its date, question, answer and
    solvers; when the request passes the presence check and validation, so
    that the insertion is attempted, the failure is the conflict error. *)
Theorem create_problem_duplicate_date vdate vquestion vanswer db d i p :
  castString vdate = CastOk d ->
  Problem_findOne d db = Some (i, p) ->
  snd (create_problem vdate vquestion vanswer db) = db /\
  Problem_findOne d (snd (create_problem vdate vquestion vanswer db)) = Some (i, p) /\
  status (fst (create_problem vdate vquestion vanswer db)) <> 201 /\
  (truthy vdate = true -> truthy vquestion = true -> truthy vanswer = true ->
   (exists newProblem, Problem_validate vdate vquestion vanswer = Ok newProblem) ->
   create_problem vdate vquestion vanswer db =
     (send 409 "이미 해당 날짜의 퀴즈가 존재합니다.", db)).
Proof.
  intros Hcast Hfound.
  assert (forall newProblem,
            Problem_validate vdate vquestion vanswer = Ok newProblem ->
            Problem_create vdate vquestion vanswer db =
              Throw (DuplicateKeyError "date")) as Hdup.
  { intros newProblem Hvalid. unfold Problem_create. rewrite Hvalid.
    rewrite (Problem_validate_date _ _ _ _ _ Hcast Hvalid).
    by rewrite (Problem_findOne_existsb _ _ _ _ Hfound). }
  assert (snd (create_problem vdate vquestion vanswer db) = db /\
          status (fst (create_problem vdate vquestion vanswer db)) <> 201)
    as [Hdb Hstatus].
  { unfold create_problem.
    destruct (negb (truthy vdate) || negb (truthy vquestion) ||
              negb (truthy vanswer)); [done|].
    destruct (Problem_validate vdate vquestion vanswer) as [np|err] eqn:Hvalid.
    - by rewrite (Hdup np).
    - unfold Problem_create. rewrite Hvalid. by destruct err. }
  split_and!; [done | by rewrite Hdb | done |].
  intros Hd Hq Ha [newProblem Hvalid].
  unfold create_problem. rewrite Hd, Hq, Ha. simpl.
  by rewrite (Hdup newProblem).
Qed.

(** *** Logging in *)

Lemma User_findOne_name_appended vname db user :
  User_findOne_name vname db = Ok None ->
  castString vname = CastOk (name user) ->
  User_findOne_name vname (mkDB (Users db ++ [user]) (Problems db)) = Ok (Some user).
Proof.
  unfold User_findOne_name. intros Hnone Hcast. rewrite Hcast in *. simpl.
  destruct (list_find (λ u, name u = name user) (Users db)) as [[k w]|] eqn:Hfind;
    [by simplify_eq/=|].
  rewrite (list_find_app_r _ _ _ Hfind). simpl.
  by rewrite decide_True.
Qed.

(** C7. When a login returns a user, a second login with the same name
    (at any later time, whatever the admin flag) returns the user with the
    same id and the same score, and creates no user record. *)
Theorem login_twice_same_user now1 id1 init1 now2 id2 init2 vname db u1 db1 :
  login now1 id1 vname init1 db = (mkResponse 200 (UserJson u1), db1) ->
  exists u2,
    login now2 id2 vname init2 db1 = (mkResponse 200 (UserJson u2), db1) /\
    _id u2 = _id u1 /\ score u2 = score u1 /\ u2 = u1.
Proof.
  unfold login. destruct (negb (truthy vname)) eqn:Hname; [done|].
  destruct (User_findOne_name vname db) as [[user|]|err] eqn:Hfind; [| |done].
  - intros [= <- <-]. rewrite Hfind. by eexists.
  - match goal with
    | |- context [match ?c with Ok _ => _ | Throw _ => _ end] =>
        destruct c as [[user db']|err] eqn:Hc; [|done]
    end.
    intros [= <- <-].
    assert (castString vname = CastOk (name user) /\
            db' = mkDB (Users db ++ [user]) (Problems db)) as [Hcast ->].
    { destruct (is_string vname "관리자" && truthy init1);
        apply User_create_Ok in Hc as (Hcast & _ & _ & Hu & Hp);
        (split; [done|]); destruct db'; simpl in *; by subst. }
    rewrite (User_findOne_name_appended _ _ _ Hfind Hcast). by eexists.
Qed.

(** *** The leaderboard *)

#[local] Instance leaderboard_order_total : Total leaderboard_order.
Proof.
  intros u v. unfold leaderboard_order.
  destruct (Z.lt_trichotomy (score u) (score v)) as [Hlt | [Heq | Hgt]];
    [right; by left | | left; by left].
  destruct (latestQuizDate u) as [x|] eqn:Hu, (latestQuizDate v) as [y|] eqn:Hv;
    simpl.
  - destruct (Z.le_ge_cases x y); [left | right]; right; by split.
  - right. right. by split.
  - left. right. by split.
  - left. right. by split.
Qed.

#[local] Instance date_asc_trans : Transitive date_asc.
Proof. intros [x|] [y|] [z|]; simpl; try done. lia. Qed.

#[local] Instance leaderboard_order_trans : Transitive leaderboard_order.
Proof.
  intros u v w. unfold leaderboard_order.
  intros [Huv | [Huv Hd1]] [Hvw | [Hvw Hd2]].
  - left. lia.
  - left. lia.
  - left. lia.
  - right. split; [lia|]. by etrans.
Qed.

Lemma StronglySorted_lookup {A} (R : relation A) (l : list A) i j x y :
  StronglySorted R l -> (i < j)%nat ->
  l !! i = Some x -> l !! j = Some y -> R x y.
Proof.
  intros Hsorted. revert i j.
  induction Hsorted as [|a l Hsorted IH Hall]; intros i j Hij Hi Hj; [done|].
  destruct j as [|j]; [lia|]. simpl in Hj.
  destruct i as [|i]; simpl in Hi.
  - simplify_eq. by eapply (Forall_lookup_1 _ _ _ _ Hall Hj).
  - apply (IH i j); [lia|done..].
Qed.

(** C8. The leaderboard is the non-admin users, each once and without its
    password, in an order where of any two entries the earlier one has the
    higher score or, at equal scores, the date that is not later. *)
Theorem leaderboard_non_admins_sorted db :
  list_leaderboard db ≡ₚ
    without_password <$> filter (fun u => isAdmin u = false) (Users db) /\
  (forall v, v ∈ list_leaderboard db <->
     exists u, u ∈ Users db /\ isAdmin u = false /\ v = without_password u) /\
  Forall (fun v => isAdmin v = false /\ password v = None) (list_leaderboard db) /\
  StronglySorted leaderboard_order (list_leaderboard db) /\
  (forall i j u v, (i < j)%nat ->
     list_leaderboard db !! i = Some u -> list_leaderboard db !! j = Some v ->
     score v <= score u /\
     (score u = score v -> date_asc (latestQuizDate u) (latestQuizDate v))).
Proof.
  assert (list_leaderboard db ≡ₚ
    without_password <$> filter (fun u => isAdmin u = false) (Users db)) as Hperm.
  { unfold list_leaderboard. by rewrite merge_sort_Permutation. }
  assert (forall v, v ∈ list_leaderboard db <->
     exists u, u ∈ Users db /\ isAdmin u = false /\ v = without_password u) as Hmem.
  { intros v. rewrite Hperm, list_elem_of_fmap. split.
    - intros (u & -> & [Hadm Hin]%list_elem_of_filter). by exists u.
    - intros (u & Hin & Hadm & ->). exists u. split; [done|].
      by apply list_elem_of_filter. }
  assert (StronglySorted leaderboard_order (list_leaderboard db)) as Hsorted.
  { unfold list_leaderboard.
    apply (StronglySorted_fmap _ leaderboard_order leaderboard_order);
      [done | apply StronglySorted_merge_sort; apply _]. }
  split_and!; [done | done | | done |].
  - apply Forall_forall. intros v (u & _ & Hadm & ->)%Hmem. by split.
  - intros i j u v Hij Hi Hj.
    destruct (StronglySorted_lookup _ _ _ _ _ _ Hsorted Hij Hi Hj) as [Hlt | [Heq Hd]].
    + split; lia.
    + split; [lia | done].
Qed.

(** *** Answers that do not parse *)

Lemma parse_digits_started radix s a :
  is_Some (parse_digits radix s (Some a)).
Proof.
  revert a. induction s as [|c s IH]; intros a; simpl; [by eexists|].
  destruct (digit_value radix c); [apply IH | by eexists].
Qed.

Lemma parse_digits_None radix s :
  parse_digits radix s None = None <-> starts_with_digit radix s = false.
Proof.
  destruct s as [|c s]; simpl; [done|].
  destruct (digit_value radix c) as [dv|] eqn:Hc.
  - rewrite bool_decide_eq_false. split.
    + intros Hnone. destruct (parse_digits_started radix s (radix * 0 + dv)) as [m Hm].
      simpl in Hnone. congruence.
    + intros Hno. destruct Hno. by eexists.
  - rewrite bool_decide_eq_false. split; [|done].
    intros _ [m Hm]. done.
Qed.

Lemma parseInt_NaN_iff v :
  parseInt v = NaN <-> has_leading_integer v = false.
Proof.
  unfold parseInt, has_leading_integer.
  destruct (strip_sign (trim_start (ToString v))) as [sign s1].
  destruct (strip_radix s1) as [radix s2].
  rewrite <- parse_digits_None.
  by destruct (parse_digits radix s2 None).
Qed.

(** C9 (amended). The verdict is the comparison of the stored answer with
    [parseInt] of the submission; a submission in which [parseInt] finds no
    leading integer parses to NaN, which equals no stored answer, so it is
    judged incorrect for every quiz. *)
Theorem solve_unparsable_incorrect t1 t2 d vuserId vanswer db i p j u :
  Problem_findOne d db = Some (i, p) ->
  User_findById vuserId db = Ok (Some (j, u)) ->
  _id u ∉ solver_userId <$> solvers p ->
  has_leading_integer vanswer = false ->
  parseInt vanswer = NaN /\
  (forall a, Number_strict_eq (Int a) (parseInt vanswer) = false) /\
  solve t1 t2 d vuserId vanswer db =
    (mkResponse 200 (SolveJson true false (score u)),
     Problem_save i (push_solver p (mkSolver (_id u) (name u) false t1)) db).
Proof.
  intros Hp Hu Hnew Hno. apply parseInt_NaN_iff in Hno.
  pose proof (solve_fresh t1 t2 d vuserId vanswer db i p j u Hp Hu Hnew) as Hs.
  cbv zeta in Hs. rewrite Hno in *. split_and!; [done | done | exact Hs].
Qed.

End Properties.

(** ** The service as a whole *)

Section Service.
Context `{Mongoose}.

Lemma truthy_false (v : JsValue) : truthy v = false <-> v ∈ falsy_values.
Proof.
  unfold falsy_values. rewrite !elem_of_cons, elem_of_nil. split.
  - destruct v as [| |[|]|[|z]|s]; simpl; try done; auto 10.
    + intros Hz%negb_false_iff%Z.eqb_eq. subst. auto 10.
    + intros Hs%negb_false_iff%String.eqb_eq. subst. auto 10.
  - intros [->|[->|[->|[->|[->|[->|[]]]]]]]; reflexivity.
Qed.

Lemma existsb_false_not_elem {A B} (f : A -> B) (eqb : B -> B -> bool)
    (b : B) (l : list A) :
  (forall x y, eqb x y = true <-> x = y) ->
  existsb (fun a => eqb (f a) b) l = false <-> b ∉ (f <$> l).
Proof.
  intros Heqb. induction l as [|a l IH]; simpl.
  - split; [intros _; apply not_elem_of_nil | done].
  - rewrite orb_false_iff, IH, not_elem_of_cons.
    rewrite <- not_true_iff_false, Heqb.
    split; (intros [Hne Hl]; split; [congruence | done]).
Qed.

Lemma User_create_inv newId vname vuserId pw admin db user db' :
  User_create newId vname vuserId pw admin db = Ok (user, db') ->
  exists n uid,
    castString vname = CastOk n /\ castString vuserId = CastOk uid /\
    n <> "" /\ uid <> "" /\
    (newId ∉ (_id <$> Users db)) /\ (uid ∉ (userId <$> Users db)) /\
    user = mkUser newId uid n pw admin 0 None /\
    db' = mkDB (Users db ++ [user]) (Problems db).
Proof.
  unfold User_create.
  destruct (castString vname) as [n| |]; [|done..].
  destruct (castString vuserId) as [uid| |]; [|done..].
  destruct (String.eqb n "" || String.eqb uid "") eqn:Hempty; [done|].
  destruct (existsb _ (Users db)) eqn:Hid; [done|].
  destruct (existsb _ (Users db)) eqn:Huid in |- *; [done|].
  intros [= <- <-]. exists n, uid.
  apply orb_false_iff in Hempty as [Hn%String.eqb_neq Hu%String.eqb_neq].
  split_and!; try done.
  - apply (existsb_false_not_elem _id ObjectId_equals); [|done].
    intros x y. apply N.eqb_eq.
  - apply (existsb_false_not_elem userId String.eqb); [|done].
    intros x y. apply String.eqb_eq.
Qed.

Lemma User_findOne_name_Some vname db user :
  User_findOne_name vname db = Ok (Some user) ->
  exists k, Users db !! k = Some user /\ castString vname = CastOk (name user).
Proof.
  unfold User_findOne_name.
  destruct (castString vname) as [n| |]; [|done..].
  destruct (list_find _ (Users db)) as [[k u]|] eqn:Hfind; [|done].
  intros [= <-]. apply list_find_Some in Hfind as (Hk & Hn & _).
  exists k. simpl. by rewrite Hn.
Qed.

Lemma User_findOne_name_None vname db n :
  User_findOne_name vname db = Ok None ->
  castString vname = CastOk n ->
  n ∉ (name <$> Users db).
Proof.
  unfold User_findOne_name. intros Hnone Hcast. rewrite Hcast in Hnone.
  destruct (list_find _ (Users db)) as [[k u]|] eqn:Hfind; [done|].
  apply list_find_None in Hfind.
  intros (u & -> & Hin)%list_elem_of_fmap.
  by apply (proj1 (Forall_forall _ _) Hfind u Hin).
Qed.

(** What a login can do: turn a falsy name away, fail in the persistence
    layer, return the stored user of that name, or create one. *)
Lemma login_cases now newId vname isAdminInit db :
  let r := login now newId vname isAdminInit db in
  (truthy vname = false /\ r = (send 400 "이름을 입력해주세요.", db)) \/
  (truthy vname = true /\ exists err, r = (send 500 (message err), db)) \/
  (truthy vname = true /\
   exists k u, Users db !! k = Some u /\ castString vname = CastOk (name u) /\
     r = (mkResponse 200 (UserJson (without_password u)), db)) \/
  (truthy vname = true /\
   exists n uid pw admin,
     let u := mkUser newId uid n pw admin 0 None in
     castString vname = CastOk n /\
     (n ∉ (name <$> Users db)) /\ (uid ∉ (userId <$> Users db)) /\
     (newId ∉ (_id <$> Users db)) /\
     ((admin = true /\ pw = Some "wj211@" /\
       castString (JStr "1234aa") = CastOk uid /\
       vname = JStr "관리자" /\ truthy isAdminInit = true) \/
      (admin = false /\ pw = None /\
       castString (js_add_now vname now) = CastOk uid)) /\
     r = (mkResponse 200 (UserJson (without_password u)),
          mkDB (Users db ++ [u]) (Problems db))).
Proof.
  intros r. subst r. unfold login.
  destruct (truthy vname) eqn:Hname; simpl; [right | by left].
  destruct (User_findOne_name vname db) as [[user|]|err] eqn:Hfind.
  - right. left. split; [done|].
    apply User_findOne_name_Some in Hfind as (k & Hk & Hcast). by exists k, user.
  - destruct (is_string vname "관리자" && truthy isAdminInit) eqn:Hseed.
    + destruct (User_create _ _ _ _ _ _) as [[user db']|err] eqn:Hc;
        [|left; split; [done|]; by exists err].
      right. right. split; [done|].
      apply User_create_inv in Hc
        as (n & uid & Hn & Hu & _ & _ & Hid & Huid & -> & ->).
      exists n, uid, (Some "wj211@"), true. split_and!; try done.
      * by eapply User_findOne_name_None.
      * left. apply andb_true_iff in Hseed as [Hs Hi]. split_and!; try done.
        destruct vname; try done. simpl in Hs. by apply String.eqb_eq in Hs as ->.
    + destruct (User_create _ _ _ _ _ _) as [[user db']|err] eqn:Hc;
        [|left; split; [done|]; by exists err].
      right. right. split; [done|].
      apply User_create_inv in Hc
        as (n & uid & Hn & Hu & _ & _ & Hid & Huid & -> & ->).
      exists n, uid, None, false. split_and!; try done.
      * by eapply User_findOne_name_None.
      * by right.
  - left. split; [done|]. by exists err.
Qed.

(** *** Logging in and authenticating *)

(** X1. A login is answered 400 exactly when the name is falsy (missing,
    null, false, NaN, 0 or the empty string), and then nothing is stored. *)
Theorem login_400_iff_falsy_name now newId vname isAdminInit db :
  (status (fst (login now newId vname isAdminInit db)) = 400 <->
   vname ∈ falsy_values) /\
  (vname ∈ falsy_values -> snd (login now newId vname isAdminInit db) = db).
Proof.
  rewrite <- truthy_false.
  destruct (login_cases now newId vname isAdminInit db)
    as [[Hf ->] | [[Ht [err ->]] | [[Ht (k & u & _ & _ & ->)] |
        [Ht (n & uid & pw & admin & _ & _ & _ & _ & _ & ->)]]]]; simpl;
    split; try done; try (split; [done | congruence]); congruence.
Qed.

(** X2. A login leaves the quizzes and the stored users as they are and
    adds at most one user, at the end: one with the given new id, score 0,
    no date, a name, a userId and an id that no stored user has, and the
    admin flag and password only when the name is the reserved one and
    [isAdminInit] is set. *)
Theorem login_appends_fresh_user now newId vname isAdminInit db :
  let db' := snd (login now newId vname isAdminInit db) in
  Problems db' = Problems db /\
  (Users db' = Users db \/
   exists u,
     Users db' = (Users db ++ [u])%list /\
     fst (login now newId vname isAdminInit db) =
       mkResponse 200 (UserJson (without_password u)) /\
     _id u = newId /\ score u = 0 /\ latestQuizDate u = None /\
     castString vname = CastOk (name u) /\
     (name u ∉ (name <$> Users db)) /\
     (userId u ∉ (userId <$> Users db)) /\
     (_id u ∉ (_id <$> Users db)) /\
     ((isAdmin u = true /\ password u = Some "wj211@" /\
       vname = JStr "관리자" /\ truthy isAdminInit = true) \/
      (isAdmin u = false /\ password u = None))).
Proof.
  intros db'. subst db'.
  destruct (login_cases now newId vname isAdminInit db)
    as [[Hf ->] | [[Ht [err ->]] | [[Ht (k & u & _ & _ & ->)] |
        [Ht (n & uid & pw & admin & Hn & Hname & Huid & Hid & Hkind & ->)]]]];
    simpl; try (split; [done | by left]).
  split; [done|]. right. eexists. split; [done|]. simpl.
  split_and!; try done.
  destruct Hkind as [(-> & -> & _ & -> & Hinit) | (-> & -> & _)];
    [by left | by right].
Qed.

(** X3. No response carries a password: every user record in the body of
    any response has the field removed. *)
Theorem handle_never_sends_password req db :
  Forall (fun u => password u = None) (body_users (body (fst (handle req db)))).
Proof.
  destruct req as [now newId vname init | id pw | | | vd vq va | t1 t2 d vu va];
    simpl.
  - destruct (login_cases now newId vname init db)
      as [[Hf ->] | [[Ht [err ->]] | [[Ht (k & u & _ & _ & ->)] |
          [Ht (n & uid & pw & admin & _ & _ & _ & _ & _ & ->)]]]]; simpl;
      repeat constructor.
  - unfold admin_auth. repeat case_match; simpl; repeat constructor.
  - unfold list_leaderboard. apply Forall_fmap, Forall_forall. done.
  - constructor.
  - unfold create_problem. repeat case_match; simpl; constructor.
  - unfold solve. repeat case_match; simpl; constructor.
Qed.

Lemma find_elem_of {A} (f : A -> bool) (l : list A) x :
  List.find f l = Some x -> x ∈ l /\ f x = true.
Proof.
  intros [Hin Hf]%find_some. split; [|done]. by apply list_elem_of_In.
Qed.

Lemma find_app_last {A} (f : A -> bool) (l : list A) x :
  (forall y, y ∈ l -> f y = false) -> f x = true ->
  List.find f (l ++ [x]) = Some x.
Proof.
  intros Hl Hx. induction l as [|y l IH]; simpl; [by rewrite Hx|].
  rewrite (Hl y) by apply list_elem_of_here.
  apply IH. intros z Hz. apply Hl. by apply list_elem_of_further.
Qed.

(** X4. Authentication succeeds exactly for a stored user that has the
    given userId, the given password and the admin flag: such a user is
    returned (without the password), and when there is none the answer is
    401.  The database is left as it was either way. *)
Theorem admin_auth_checks_credentials id pw db i w :
  castString id = CastOk i ->
  castString pw = CastOk w ->
  (exists u,
     u ∈ Users db /\ userId u = i /\ password u = Some w /\ isAdmin u = true /\
     admin_auth id pw db =
       (mkResponse 200 (UserJson (without_password u)), db)) \/
  ((forall u, u ∈ Users db ->
      ~ (userId u = i /\ password u = Some w /\ isAdmin u = true)) /\
   admin_auth id pw db = (send 401 "인증 실패", db)).
Proof.
  intros Hid Hpw. unfold admin_auth. rewrite Hid, Hpw.
  destruct (List.find _ (Users db)) as [u|] eqn:Hfind.
  - left. exists u. apply find_elem_of in Hfind as [Hin Hf].
    apply andb_true_iff in Hf as [[Hu Hp]%andb_true_iff Ha].
    simpl in Hu. apply String.eqb_eq in Hu.
    destruct (password u) as [t|] eqn:Hpu; [|done].
    simpl in Hp. apply String.eqb_eq in Hp. subst. by split_and!.
  - right. split; [|done]. intros u Hin (Hu & Hp & Ha).
    apply list_elem_of_In in Hin.
    pose proof (find_none _ _ Hfind u Hin) as Hf. simpl in Hf.
    rewrite Hp, Ha in Hf. simpl in Hf.
    rewrite Hu, !String.eqb_refl in Hf. done.
Qed.

(** X5. Seeding and then authenticating: when no stored user has the
    reserved name, the reserved userId or the new id, a login under the
    reserved name with [isAdminInit] set creates the administrator, and
    the fixed credentials then authenticate as that user. *)
Theorem seeded_admin_authenticates now newId isAdminInit db :
  (forall s, castString (JStr s) = CastOk s) ->
  truthy isAdminInit = true ->
  "관리자" ∉ (name <$> Users db) ->
  "1234aa" ∉ (userId <$> Users db) ->
  newId ∉ (_id <$> Users db) ->
  let admin := mkUser newId "1234aa" "관리자" (Some "wj211@") true 0 None in
  let db' := mkDB (Users db ++ [admin]) (Problems db) in
  login now newId (JStr "관리자") isAdminInit db =
    (mkResponse 200 (UserJson (without_password admin)), db') /\
  admin_auth (JStr "1234aa") (JStr "wj211@") db' =
    (mkResponse 200 (UserJson (without_password admin)), db').
Proof.
  intros Hstr Hinit Hname Huid Hid admin db'. split.
  - unfold login. simpl truthy. simpl negb. cbv iota.
    assert (User_findOne_name (JStr "관리자") db = Ok None) as ->.
    { unfold User_findOne_name. rewrite Hstr.
      destruct (list_find _ (Users db)) as [[k u]|] eqn:Hfind; [|done].
      apply list_find_Some in Hfind as (Hk & Hn & _). destruct Hname.
      apply list_elem_of_fmap. exists u. split; [done|].
      by eapply list_elem_of_lookup_2. }
    simpl is_string. rewrite Hinit. simpl andb. cbv iota.
    unfold User_create. rewrite !Hstr. simpl orb. cbv iota.
    rewrite (proj2 (existsb_false_not_elem _id ObjectId_equals newId (Users db)
                      N.eqb_eq) Hid).
    rewrite (proj2 (existsb_false_not_elem userId String.eqb "1234aa" (Users db)
                      String.eqb_eq) Huid).
    done.
  - unfold admin_auth. rewrite !Hstr. subst db'. simpl Users.
    rewrite (find_app_last _ _ admin); [done | | reflexivity].
    intros u Hu. cbv beta iota delta [field_matches].
    destruct (String.eqb "1234aa" (userId u)) eqn:Heq; [|done].
    apply String.eqb_eq in Heq. destruct Huid.
    apply list_elem_of_fmap. by exists u.
Qed.

(** *** Creating and listing quizzes *)

Lemma Problem_validate_inv vdate vquestion vanswer :
  (exists d q a,
     castString vdate = CastOk d /\ castString vquestion = CastOk q /\
     castNumber vanswer = CastOk a /\ d <> "" /\ q <> "" /\
     Problem_validate vdate vquestion vanswer = Ok (mkProblem d q a [])) \/
  Problem_validate vdate vquestion vanswer = Throw (ValidationError "Problem").
Proof.
  unfold Problem_validate.
  destruct (castString vdate) as [d| |]; [|by right..].
  destruct (castString vquestion) as [q| |]; [|by right..].
  destruct (castNumber vanswer) as [a| |]; [|by right..].
  destruct (String.eqb d "" || String.eqb q "") eqn:Hempty; [by right|].
  apply orb_false_iff in Hempty as [Hd%String.eqb_neq Hq%String.eqb_neq].
  left. by exists d, q, a.
Qed.

(** What a create request can do: fail the presence check, fail
    validation, hit the unique index, or append the quiz. *)
Lemma create_problem_cases vdate vquestion vanswer db :
  let r := create_problem vdate vquestion vanswer db in
  let present :=
    truthy vdate = true /\ truthy vquestion = true /\ truthy vanswer = true in
  ((truthy vdate = false \/ truthy vquestion = false \/ truthy vanswer = false) /\
   r = (send 400 "모든 필드를 입력해야 합니다.", db)) \/
  (present /\
   Problem_validate vdate vquestion vanswer = Throw (ValidationError "Problem") /\
   r = (send 500 (message (ValidationError "Problem")), db)) \/
  (present /\ exists np,
     Problem_validate vdate vquestion vanswer = Ok np /\
     date np ∈ (date <$> Problems db) /\
     r = (send 409 "이미 해당 날짜의 퀴즈가 존재합니다.", db)) \/
  (present /\ exists np,
     Problem_validate vdate vquestion vanswer = Ok np /\
     (date np ∉ (date <$> Problems db)) /\
     r = (mkResponse 201 (ProblemJson np),
          mkDB (Users db) (Problems db ++ [np]))).
Proof.
  intros r present. subst r present. unfold create_problem.
  destruct (truthy vdate) eqn:Hd; [|left; split; [by left | done]].
  destruct (truthy vquestion) eqn:Hq; [|left; split; [by right; left | done]].
  destruct (truthy vanswer) eqn:Ha; [|left; split; [by right; right | done]].
  right. simpl. unfold Problem_create.
  destruct (Problem_validate_inv vdate vquestion vanswer)
    as [(d & q & a & _ & _ & _ & _ & _ & Hv) | Hv]; rewrite Hv.
  - right.
    destruct (existsb _ (Problems db)) eqn:Hdup.
    + left. split; [done|]. eexists. split; [done|]. split; [|done].
      apply dec_stable. intros Hnot.
      apply (existsb_false_not_elem date String.eqb _ _ String.eqb_eq) in Hnot.
      congruence.
    + right. split; [done|]. eexists. split; [done|]. split; [|done].
      by apply (existsb_false_not_elem date String.eqb _ _ String.eqb_eq).
  - left. by split_and!.
Qed.

(** X6. A create request is answered 400 exactly when one of its three
    fields is falsy (missing, null, false, NaN, 0 or the empty string), and
    then nothing is stored. *)
Theorem create_problem_400_iff_falsy_field vdate vquestion vanswer db :
  let falsy :=
    vdate ∈ falsy_values \/ vquestion ∈ falsy_values \/ vanswer ∈ falsy_values in
  (status (fst (create_problem vdate vquestion vanswer db)) = 400 <-> falsy) /\
  (falsy -> snd (create_problem vdate vquestion vanswer db) = db).
Proof.
  intros falsy. subst falsy. rewrite <- !truthy_false.
  destruct (create_problem_cases vdate vquestion vanswer db)
    as [[Hf ->] | [[(Hd & Hq & Ha) [_ ->]] |
        [[(Hd & Hq & Ha) (np & _ & _ & ->)] |
         [(Hd & Hq & Ha) (np & _ & _ & ->)]]]]; simpl;
    (split; [split; [try done | try done] | try done]);
    try (intros [?|[?|?]]; congruence).
Qed.

(** X7. A request that passes the presence check and validation for a date
    that has no quiz yet is answered 201 with the new quiz, which has no
    solvers; the quiz is stored after the others and is the one found
    under its date, every other date finds what it found before, and the
    users are as they were. *)
Theorem create_problem_then_find vdate vquestion vanswer db newProblem :
  truthy vdate = true -> truthy vquestion = true -> truthy vanswer = true ->
  Problem_validate vdate vquestion vanswer = Ok newProblem ->
  Problem_findOne (date newProblem) db = None ->
  let db' := mkDB (Users db) (Problems db ++ [newProblem]) in
  create_problem vdate vquestion vanswer db =
    (mkResponse 201 (ProblemJson newProblem), db') /\
  solvers newProblem = [] /\
  Problem_findOne (date newProblem) db' =
    Some (length (Problems db), newProblem) /\
  (forall d, d <> date newProblem ->
     Problem_findOne d db' = Problem_findOne d db).
Proof.
  intros Hd Hq Ha Hvalid Habsent db'. subst db'.
  assert (date newProblem ∉ (date <$> Problems db)) as Hnot.
  { intros (p & Hp & Hin)%list_elem_of_fmap.
    unfold Problem_findOne in Habsent. apply list_find_None in Habsent.
    by apply (proj1 (Forall_forall _ _) Habsent p Hin). }
  split_and!.
  - destruct (create_problem_cases vdate vquestion vanswer db)
      as [[Hf _] | [[_ [Hv _]] | [[_ (np & Hv & Hin & _)] |
          [_ (np & Hv & _ & ->)]]]].
    + destruct Hf as [?|[?|?]]; congruence.
    + congruence.
    + rewrite Hvalid in Hv. injection Hv as <-. by destruct Hnot.
    + rewrite Hvalid in Hv. by injection Hv as <-.
  - destruct (Problem_validate_inv vdate vquestion vanswer)
      as [(d & q & a & _ & _ & _ & _ & _ & Hv) | Hv];
      rewrite Hvalid in Hv; [by injection Hv as -> | done].
  - unfold Problem_findOne in *. simpl.
    rewrite (list_find_app_r _ _ _ Habsent). simpl.
    by rewrite decide_True.
  - intros d Hne. unfold Problem_findOne. simpl.
    destruct (list_find (fun p => date p = d) (Problems db)) as [[k p]|] eqn:Hfind.
    + by apply list_find_app_l.
    + rewrite (list_find_app_r _ _ _ Hfind). simpl.
      by rewrite decide_False.
Qed.

(** X8. A request whose three fields are present but which the schema
    rejects (an answer that does not cast to a number, say) is answered
    500 with the validation message, not 400, and nothing is stored. *)
Theorem create_problem_invalid_is_500 vdate vquestion vanswer db :
  truthy vdate = true -> truthy vquestion = true -> truthy vanswer = true ->
  (forall d, castString vdate <> CastOk d \/ d = "") \/
  (forall q, castString vquestion <> CastOk q \/ q = "") \/
  (forall a, castNumber vanswer <> CastOk a) ->
  create_problem vdate vquestion vanswer db =
    (send 500 (message (ValidationError "Problem")), db).
Proof.
  intros Hd Hq Ha Hbad.
  destruct (create_problem_cases vdate vquestion vanswer db)
    as [[Hf _] | [[_ [_ ->]] | [[_ (np & Hv & _)] | [_ (np & Hv & _)]]]];
    [destruct Hf as [?|[?|?]]; congruence | done | |];
    destruct (Problem_validate_inv vdate vquestion vanswer)
      as [(d & q & a & Hcd & Hcq & Hca & Hdne & Hqne & _) | Hthrow];
    try congruence;
    destruct Hbad as [Hb | [Hb | Hb]];
    [ destruct (Hb d) | destruct (Hb q) | destruct (Hb a)
    | destruct (Hb d) | destruct (Hb q) | destruct (Hb a) ]; done.
Qed.

Lemma String_compare_not_Gt_trans (a b c : string) :
  String.compare a b <> Gt -> String.compare b c <> Gt ->
  String.compare a c <> Gt.
Proof.
  revert b c. induction a as [|x a IH]; intros [|y b] [|z c]; simpl; try done.
  unfold Ascii.compare.
  destruct (N.compare_spec (N_of_ascii x) (N_of_ascii y)) as [Hxy|Hxy|Hxy];
    destruct (N.compare_spec (N_of_ascii y) (N_of_ascii z)) as [Hyz|Hyz|Hyz];
    destruct (N.compare_spec (N_of_ascii x) (N_of_ascii z)) as [Hxz|Hxz|Hxz];
    try done; try lia.
  apply IH.
Qed.

#[local] Instance date_desc_total : Total date_desc.
Proof. intros p q. unfold date_desc. destruct (String.leb_total (date p) (date q)); auto. Qed.

#[local] Instance date_desc_trans : Transitive date_desc.
Proof.
  intros p q r. unfold date_desc, String.leb. intros Hqp Hrq.
  pose proof (String_compare_not_Gt_trans (date r) (date q) (date p)) as Ht.
  destruct (String.compare (date r) (date q)); try done;
    destruct (String.compare (date q) (date p)); try done;
    destruct (String.compare (date r) (date p)); try done;
    by destruct Ht.
Qed.

(** X9. The quiz listing holds exactly the stored quizzes, solvers
    included, latest date first: of any two entries the earlier one has the
    date that is not smaller, and the strictly greater one when no two
    stored quizzes share a date.  The database is left as it was. *)
Theorem get_problems_sorted db :
  exists ps,
    get_problems db = (mkResponse 200 (ProblemsJson ps), db) /\
    ps ≡ₚ Problems db /\
    (forall i j p q, (i < j)%nat -> ps !! i = Some p -> ps !! j = Some q ->
       String.leb (date q) (date p) = true /\
       (NoDup (date <$> Problems db) -> String.ltb (date q) (date p) = true)).
Proof.
  exists (merge_sort date_desc (Problems db)).
  split; [done|]. split; [apply merge_sort_Permutation|].
  intros i j p q Hij Hi Hj.
  assert (date_desc p q) as Hle.
  { eapply StronglySorted_lookup; [|exact Hij|exact Hi|exact Hj].
    apply StronglySorted_merge_sort; apply _. }
  split; [exact Hle|]. intros Hnodup.
  assert (NoDup (date <$> merge_sort date_desc (Problems db))) as Hnd.
  { by rewrite merge_sort_Permutation. }
  assert (date q <> date p) as Hne.
  { intros Heq.
    assert (j = i); [|lia].
    eapply (NoDup_lookup _ _ _ _ Hnd); rewrite list_lookup_fmap.
    - by rewrite Hj.
    - rewrite Hi. simpl. by rewrite Heq. }
  unfold date_desc, String.leb in Hle. unfold String.ltb.
  destruct (String.compare (date q) (date p)) eqn:Hcmp; try done.
  by apply String.compare_eq_iff in Hcmp.
Qed.

(** *** Solving, case by case *)

(** The database after a first attempt: the record appended to the quiz
    at [i], and the user at [j] scored when the verdict is [true]. *)
Lemma solve_cases t1 t2 d vuserId vanswer db :
  let r := solve t1 t2 d vuserId vanswer db in
  (castObjectId vuserId = CastFail /\
   r = (send 500 (message (CastError "_id")), db)) \/
  (castObjectId vuserId <> CastFail /\
   (Problem_findOne d db = None \/ User_findById vuserId db = Ok None) /\
   r = (send 404 "퀴즈 또는 사용자를 찾을 수 없습니다.", db)) \/
  (exists i p j u,
     Problem_findOne d db = Some (i, p) /\
     User_findById vuserId db = Ok (Some (j, u)) /\
     _id u ∈ (solver_userId <$> solvers p) /\
     r = (send 400 "이미 이 퀴즈를 풀었습니다.", db)) \/
  (exists i p j u,
     Problem_findOne d db = Some (i, p) /\
     User_findById vuserId db = Ok (Some (j, u)) /\
     (_id u ∉ (solver_userId <$> solvers p)) /\
     let verdict := Number_strict_eq (Int (answer p)) (parseInt vanswer) in
     let u' := if verdict
               then mkUser (_id u) (userId u) (name u) (password u) (isAdmin u)
                           (score u + 1) (Some t2)
               else u in
     r = (mkResponse 200 (SolveJson true verdict (score u')),
          mkDB (<[j := u']> (Users db))
               (<[i := push_solver p (mkSolver (_id u) (name u) verdict t1)]>
                  (Problems db)))).
Proof.
  intros r. subst r.
  destruct (castObjectId vuserId) as [oid| |] eqn:Hcast.
  - destruct (Problem_findOne d db) as [[i p]|] eqn:Hp.
    + destruct (User_findById vuserId db) as [[[j u]|]|err] eqn:Hu.
      * destruct (decide (_id u ∈ (solver_userId <$> solvers p))) as [Hin|Hnew].
        -- right. right. left. exists i, p, j, u. split_and!; try done.
           unfold solve. rewrite Hp, Hu.
           apply alreadySolved_iff in Hin. by rewrite Hin.
        -- right. right. right. exists i, p, j, u. split_and!; try done.
           rewrite (solve_fresh t1 t2 d vuserId vanswer db i p j u Hp Hu Hnew).
           apply User_findById_lookup in Hu as [Hj _].
           destruct (Number_strict_eq (Int (answer p)) (parseInt vanswer));
             simpl; [done|].
           unfold Problem_save. simpl. by rewrite (list_insert_id _ _ _ Hj).
      * right. left. split_and!; [done | by right |].
        unfold solve. by rewrite Hp, Hu.
      * unfold User_findById in Hu. by rewrite Hcast in Hu.
    + right. left. split_and!; [done | by left |].
      unfold solve. rewrite Hp.
      by destruct (User_findById vuserId db) as [[[j u]|]|err] eqn:Hu;
        [..|unfold User_findById in Hu; rewrite Hcast in Hu].
  - right. left.
    assert (User_findById vuserId db = Ok None) as Hu.
    { unfold User_findById. by rewrite Hcast. }
    split_and!; [done | by right |].
    unfold solve. rewrite Hu. by destruct (Problem_findOne d db) as [[i p]|].
  - left. split; [done|]. unfold solve, User_findById. by rewrite Hcast.
Qed.


Lemma list_find_insert_same {A} (P : A -> Prop) `{!forall x, Decision (P x)}
    (l : list A) i x y :
  list_find P l = Some (i, x) -> P y ->
  list_find P (<[i := y]> l) = Some (i, y).
Proof.
  intros (Hi & Hx & Hleast)%list_find_Some Hy. apply list_find_Some.
  split_and!; [|done|].
  - apply list_lookup_insert_eq. by eapply lookup_lt_Some.
  - intros k z Hk Hlt. rewrite list_lookup_insert_ne in Hk by lia.
    by eapply Hleast.
Qed.

(** X11. One attempt per user and quiz, whatever the first verdict: once
    a solve was answered 200, every later solve with the same user id and
    date is answered 400 and changes nothing, whatever answer it brings. *)
Theorem solve_second_attempt_rejected t1 t2 t3 t4 d vuserId vanswer1 vanswer2 db :
  status (fst (solve t1 t2 d vuserId vanswer1 db)) = 200 ->
  let db1 := snd (solve t1 t2 d vuserId vanswer1 db) in
  solve t3 t4 d vuserId vanswer2 db1 =
    (send 400 "이미 이 퀴즈를 풀었습니다.", db1).
Proof.
  destruct (solve_cases t1 t2 d vuserId vanswer1 db)
    as [[Hc ->] | [(Hc & Habs & ->) | [(i & p & j & u & Hp & Hu & Hin & ->) |
        (i & p & j & u & Hp & Hu & Hnew & ->)]]]; [by simpl..|].
  intros _. cbv zeta. cbn [fst snd].
  set (verdict := Number_strict_eq (Int (answer p)) (parseInt vanswer1)).
  set (u' := if verdict then _ else _).
  set (p' := push_solver p _).
  assert (_id u' = _id u) as Hid by (subst u'; by destruct verdict).
  unfold solve.
  assert (Problem_findOne d (mkDB (<[j:=u']> (Users db)) (<[i:=p']> (Problems db)))
          = Some (i, p')) as ->.
  { unfold Problem_findOne in *. simpl.
    apply (list_find_insert_same _ _ _ p); [done|].
    by apply list_find_Some in Hp as (_ & Hd & _). }
  assert (User_findById vuserId
            (mkDB (<[j:=u']> (Users db)) (<[i:=p']> (Problems db)))
          = Ok (Some (j, u'))) as ->.
  { unfold User_findById in *.
    destruct (castObjectId vuserId) as [oid| |]; [|done..].
    injection Hu as Hu. simpl. f_equal.
    apply (list_find_insert_same _ _ _ u); [done|].
    apply list_find_Some in Hu as (_ & Ho & _). congruence. }
  assert (existsb (fun s => ObjectId_equals (solver_userId s) (_id u'))
            (solvers p') = true) as ->; [|done].
  apply alreadySolved_iff. subst p'. simpl. rewrite fmap_app, Hid.
  apply elem_of_app. right. simpl. apply list_elem_of_here.
Qed.

(** *** What every request keeps *)

Lemma fmap_insert_same {A B} (f : A -> B) (l : list A) i x y :
  l !! i = Some x -> f y = f x -> f <$> <[i := y]> l = f <$> l.
Proof.
  intros Hi Hf. rewrite list_fmap_insert. apply list_insert_id.
  rewrite list_lookup_fmap, Hi. simpl. by rewrite Hf.
Qed.

Lemma NoDup_fmap_snoc {A B} (f : A -> B) (l : list A) x :
  NoDup (f <$> l) -> f x ∉ (f <$> l) -> NoDup (f <$> (l ++ [x])%list).
Proof.
  intros Hnd Hnew. rewrite fmap_app. apply NoDup_app.
  split_and!; [done | | apply NoDup_singleton].
  intros y Hy [->|Hnil]%elem_of_cons; [done|]. by apply elem_of_nil in Hnil.
Qed.

Lemma handle_unique_keys req db :
  unique_keys db -> unique_keys (snd (handle req db)).
Proof.
  intros (Hid & Huid & Hname & Hdate).
  destruct req as [now newId vname init | id pw | | | vd vq va | t1 t2 d vu va];
    simpl.
  - destruct (login_cases now newId vname init db)
      as [[Hf ->] | [[Ht [err ->]] | [[Ht (k & u & _ & _ & ->)] |
          [Ht (n & uid & pw & admin & _ & Hn & Hu & Hi & _ & ->)]]]];
      try done.
    split_and!; simpl; try done; by apply NoDup_fmap_snoc.
  - by rewrite admin_auth_db.
  - done.
  - done.
  - destruct (create_problem_cases vd vq va db)
      as [[Hf ->] | [[_ [_ ->]] | [[_ (np & _ & _ & ->)] |
          [_ (np & _ & Hnew & ->)]]]]; try done.
    split_and!; simpl; try done. by apply NoDup_fmap_snoc.
  - destruct (solve_cases t1 t2 d vu va db)
      as [[Hc ->] | [(Hc & Habs & ->) | [(i & p & j & u & Hp & Hu & Hin & ->) |
          (i & p & j & u & Hp & Hu & Hnew & ->)]]]; try done.
    apply Problem_findOne_lookup in Hp as [Hi _].
    apply User_findById_lookup in Hu as [Hj _].
    cbv zeta. unfold unique_keys. cbn [snd Users Problems].
    rewrite (fmap_insert_same _id _ _ u), (fmap_insert_same userId _ _ u),
      (fmap_insert_same name _ _ u), (fmap_insert_same date _ _ p);
      try done; by destruct (Number_strict_eq _ _).
Qed.

(** X12. The unique indexes hold from request to request: no request
    makes two users share an [_id], a [userId] or a name, or two quizzes a
    date; so in every database the service reaches, one request at a time,
    ids, userIds, names and dates are unique. *)
Theorem reachable_unique_keys :
  (forall req db, unique_keys db -> unique_keys (snd (handle req db))) /\
  (forall db, reachable db -> unique_keys db).
Proof.
  split; [apply handle_unique_keys|].
  induction 1 as [|req db _ IH]; [|by apply handle_unique_keys].
  split_and!; simpl; apply NoDup_nil_2.
Qed.

Lemma user_kept_refl u : user_kept u u.
Proof. unfold user_kept. split_and!; try done; lia. Qed.

Lemma grows_refl db : grows db db.
Proof.
  split.
  - intros k u Hk. exists u. split; [done | apply user_kept_refl].
  - intros k p Hk. by exists p.
Qed.

(** X13. Nothing is deleted or rewritten: after any request every stored
    user is still at its place with the same id, userId, name, password
    and admin flag, and a score that is the same or one more; and every
    stored quiz is still at its place with the same date, question and
    answer, its earlier solver records first and unchanged. *)
Theorem handle_grows req db : grows db (snd (handle req db)).
Proof.
  destruct req as [now newId vname init | id pw | | | vd vq va | t1 t2 d vu va];
    simpl.
  - destruct (login_cases now newId vname init db)
      as [[Hf ->] | [[Ht [err ->]] | [[Ht (k & u & _ & _ & ->)] |
          [Ht (n & uid & pw & admin & _ & _ & _ & _ & _ & ->)]]]];
      try apply grows_refl.
    split; [|apply (proj2 (grows_refl db))]. intros k u Hk. exists u. simpl.
    split; [by apply lookup_app_l_Some | apply user_kept_refl].
  - rewrite admin_auth_db. apply grows_refl.
  - apply grows_refl.
  - apply grows_refl.
  - destruct (create_problem_cases vd vq va db)
      as [[Hf ->] | [[_ [_ ->]] | [[_ (np & _ & _ & ->)] |
          [_ (np & _ & Hnew & ->)]]]]; try apply grows_refl.
    split; [apply (proj1 (grows_refl db))|]. intros k p Hk. exists p. simpl.
    split; [by apply lookup_app_l_Some | done].
  - destruct (solve_cases t1 t2 d vu va db)
      as [[Hc ->] | [(Hc & Habs & ->) | [(i & p & j & u & Hp & Hu & Hin & ->) |
          (i & p & j & u & Hp & Hu & Hnew & ->)]]]; try apply grows_refl.
    apply Problem_findOne_lookup in Hp as [Hi _].
    apply User_findById_lookup in Hu as [Hj _].
    cbv zeta. cbn [snd]. split; cbn [Users Problems].
    + intros k w Hk. destruct (decide (k = j)) as [->|Hne].
      * rewrite Hj in Hk. injection Hk as <-. eexists. split.
        { apply list_lookup_insert_eq. by eapply lookup_lt_Some. }
        unfold user_kept.
        destruct (Number_strict_eq (Int (answer p)) (parseInt va)); simpl;
          split_and!; try done; lia.
      * exists w. rewrite list_lookup_insert_ne by done.
        split; [done | apply user_kept_refl].
    + intros k q Hk. destruct (decide (k = i)) as [->|Hne].
      * rewrite Hi in Hk. injection Hk as <-. eexists. split.
        { apply list_lookup_insert_eq. by eapply lookup_lt_Some. }
        unfold problem_kept. simpl. split_and!; try done.
        by apply prefix_app_r.
      * exists q. rewrite list_lookup_insert_ne by done. by split.
Qed.

(** *** Scores and solver records *)

Lemma Problem_validate_solvers vdate vquestion vanswer np :
  Problem_validate vdate vquestion vanswer = Ok np -> solvers np = [].
Proof.
  destruct (Problem_validate_inv vdate vquestion vanswer)
    as [(d & q & a & _ & _ & _ & _ & _ & ->) | ->]; [|done].
  by intros [= <-].
Qed.

Lemma elem_of_insert_inv {A} (l : list A) i x y :
  y ∈ <[i := x]> l -> y = x \/ y ∈ l.
Proof.
  intros [k Hk]%list_elem_of_lookup_1.
  destruct (decide (k = i)) as [->|Hne].
  - destruct (decide (i < length l)%nat) as [Hlt|Hge].
    + rewrite list_lookup_insert_eq in Hk by done. left. congruence.
    + rewrite list_insert_ge in Hk by lia. right.
      by eapply list_elem_of_lookup_2.
  - rewrite list_lookup_insert_ne in Hk by done. right.
    by eapply list_elem_of_lookup_2.
Qed.

(** A stored user is still there, under the same id and name, after the
    one at [j] was saved with its id and name unchanged. *)
Lemma user_survives_save (us : list User) j u u' w :
  us !! j = Some u -> _id u' = _id u -> name u' = name u -> w ∈ us ->
  exists w', w' ∈ <[j := u']> us /\ _id w' = _id w /\ name w' = name w.
Proof.
  intros Hj Hid Hname [k Hk]%list_elem_of_lookup_1.
  destruct (decide (k = j)) as [->|Hne].
  - exists u'. rewrite Hj in Hk. injection Hk as <-. split; [|done].
    apply list_elem_of_insert. by eapply lookup_lt_Some.
  - exists w. split; [|done]. eapply list_elem_of_lookup_2.
    by rewrite list_lookup_insert_ne.
Qed.

Lemma handle_solvers_known req db :
  solvers_known db -> solvers_known (snd (handle req db)).
Proof.
  intros Hknown.
  destruct req as [now newId vname init | id pw | | | vd vq va | t1 t2 d vu va];
    simpl.
  - destruct (login_cases now newId vname init db)
      as [[Hf ->] | [[Ht [err ->]] | [[Ht (k & u & _ & _ & ->)] |
          [Ht (n & uid & pw & admin & _ & _ & _ & _ & _ & ->)]]]];
      try done.
    intros p s Hp Hs. destruct (Hknown p s Hp Hs) as (w & Hw & Hids).
    exists w. split; [|done]. simpl. apply elem_of_app. by left.
  - by rewrite admin_auth_db.
  - done.
  - done.
  - destruct (create_problem_cases vd vq va db)
      as [[Hf ->] | [[_ [_ ->]] | [[_ (np & _ & _ & ->)] |
          [_ (np & Hv & Hnew & ->)]]]]; try done.
    intros p s [Hp | Hp%list_elem_of_singleton]%elem_of_app Hs.
    + by apply (Hknown p s).
    + subst p. rewrite (Problem_validate_solvers _ _ _ _ Hv) in Hs.
      by apply elem_of_nil in Hs.
  - destruct (solve_cases t1 t2 d vu va db)
      as [[Hc ->] | [(Hc & Habs & ->) | [(i & p & j & u & Hp & Hu & Hin & ->) |
          (i & p & j & u & Hp & Hu & Hnew & ->)]]]; try done.
    apply Problem_findOne_lookup in Hp as [Hi _].
    apply User_findById_lookup in Hu as [Hj _].
    cbv zeta. cbn [snd].
    set (verdict := Number_strict_eq (Int (answer p)) (parseInt va)).
    set (u' := if verdict then _ else _).
    assert (_id u' = _id u /\ name u' = name u) as [Hid Hname]
      by (subst u'; by destruct verdict).
    intros q s Hq Hs. cbn [Users Problems] in *.
    assert (s ∈ solvers p /\ q = push_solver p (mkSolver (_id u) (name u) verdict t1)
            \/ s = mkSolver (_id u) (name u) verdict t1 \/ q ∈ Problems db)
      as [[Hold _] | [-> | Hold]].
    { apply elem_of_insert_inv in Hq as [-> | Hq]; [|by right; right].
      simpl in Hs. apply elem_of_app in Hs as [Hs | Hs%list_elem_of_singleton].
      - left. by split.
      - right. by left. }
    + destruct (Hknown p s) as (w & Hw & Hwid & Hwname);
        [by eapply list_elem_of_lookup_2 | done |].
      destruct (user_survives_save _ _ _ _ _ Hj Hid Hname Hw)
        as (w' & Hw' & Hi' & Hn').
      exists w'. split; [done|]. split; congruence.
    + exists u'. split; [|done].
      apply list_elem_of_insert. by eapply lookup_lt_Some.
    + destruct (Hknown q s Hold Hs) as (w & Hw & Hwid & Hwname).
      destruct (user_survives_save _ _ _ _ _ Hj Hid Hname Hw)
        as (w' & Hw' & Hi' & Hn').
      exists w'. split; [done|]. split; congruence.
Qed.

Lemma sum_list_fmap_insert {A} (f : A -> nat) (l : list A) i x y :
  l !! i = Some x ->
  (sum_list (f <$> <[i := y]> l) + f x = sum_list (f <$> l) + f y)%nat.
Proof.
  revert i. induction l as [|a l IH]; intros [|i] Hi; simplify_eq/=; [lia|].
  specialize (IH i Hi). lia.
Qed.

Lemma correct_in_push oid p s :
  correct_in oid (push_solver p s) =
    (correct_in oid p +
     if decide (solver_userId s = oid /\ isCorrect s = true) then 1 else 0)%nat.
Proof.
  unfold correct_in. simpl. rewrite filter_app, length_app. f_equal.
  rewrite filter_cons, filter_nil. by case_decide.
Qed.

Lemma correct_in_unknown oid p :
  oid ∉ (solver_userId <$> solvers p) -> correct_in oid p = 0%nat.
Proof.
  intros Hnot. unfold correct_in.
  induction (solvers p) as [|s l IH]; [done|].
  apply not_elem_of_cons in Hnot as [Hne Hl].
  rewrite filter_cons. rewrite decide_False by (intros [? _]; congruence).
  by apply IH.
Qed.

Lemma correct_in_le_1 oid p :
  NoDup (solver_userId <$> solvers p) -> (correct_in oid p <= 1)%nat.
Proof.
  unfold correct_in. induction (solvers p) as [|s l IH]; simpl; [lia|].
  intros [Hnew Hnd]%NoDup_cons. rewrite filter_cons.
  case_decide as Hs; [|by apply IH].
  destruct Hs as [<- _]. simpl.
  pose proof (correct_in_unknown (solver_userId s)
                (mkProblem "" "" 0 l) Hnew) as Hzero.
  unfold correct_in in Hzero. simpl in Hzero. rewrite Hzero. simpl. lia.
Qed.

Lemma sum_list_fmap_zero {A} (f : A -> nat) (l : list A) :
  (forall x, x ∈ l -> f x = 0%nat) -> sum_list (f <$> l) = 0%nat.
Proof.
  induction l as [|a l IH]; intros Hl; simpl; [done|].
  rewrite (Hl a) by apply list_elem_of_here. simpl.
  apply IH. intros x Hx. apply Hl. by apply list_elem_of_further.
Qed.

Lemma sum_list_fmap_le_length {A} (f : A -> nat) (l : list A) :
  Forall (fun x => (f x <= 1)%nat) l -> (sum_list (f <$> l) <= length l)%nat.
Proof. induction 1; csimpl; lia. Qed.

(** A user id that no stored user has counts no correct record. *)
Lemma correct_count_stranger oid db :
  solvers_known db -> oid ∉ (_id <$> Users db) -> correct_count oid db = 0%nat.
Proof.
  intros Hknown Hnot. unfold correct_count. apply sum_list_fmap_zero.
  intros p Hp. apply correct_in_unknown.
  intros (s & -> & Hs)%list_elem_of_fmap.
  destruct (Hknown p s Hp Hs) as (w & Hw & Hwid & _).
  destruct Hnot. apply list_elem_of_fmap. by exists w.
Qed.

Lemma handle_scores_counted req db :
  NoDup (_id <$> Users db) -> solvers_known db -> scores_counted db ->
  scores_counted (snd (handle req db)).
Proof.
  intros Hnd Hknown Hscores.
  destruct req as [now newId vname init | id pw | | | vd vq va | t1 t2 d vu va];
    simpl.
  - destruct (login_cases now newId vname init db)
      as [[Hf ->] | [[Ht [err ->]] | [[Ht (k & u & _ & _ & ->)] |
          [Ht (n & uid & pw & admin & _ & _ & _ & Hnew & _ & ->)]]]];
      try done.
    intros w [Hw | ->%list_elem_of_singleton]%elem_of_app.
    + by apply Hscores.
    + simpl. change (correct_count newId _) with (correct_count newId db).
      by rewrite correct_count_stranger.
  - by rewrite admin_auth_db.
  - done.
  - done.
  - destruct (create_problem_cases vd vq va db)
      as [[Hf ->] | [[_ [_ ->]] | [[_ (np & _ & _ & ->)] |
          [_ (np & Hv & Hnew & ->)]]]]; try done.
    cbn [snd]. intros w Hw. rewrite (Hscores w Hw). f_equal.
    unfold correct_count. cbn [Problems].
    rewrite fmap_app, sum_list_with_app. csimpl.
    assert (correct_in (_id w) np = 0%nat) as ->; [|lia].
    unfold correct_in. by rewrite (Problem_validate_solvers _ _ _ _ Hv).
  - destruct (solve_cases t1 t2 d vu va db)
      as [[Hc ->] | [(Hc & Habs & ->) | [(i & p & j & u & Hp & Hu & Hin & ->) |
          (i & p & j & u & Hp & Hu & Hnew & ->)]]]; try done.
    apply Problem_findOne_lookup in Hp as [Hi _].
    apply User_findById_lookup in Hu as [Hj _].
    cbv zeta. cbn [snd].
    set (verdict := Number_strict_eq (Int (answer p)) (parseInt va)).
    set (u' := if verdict then _ else _).
    set (rec := mkSolver (_id u) (name u) verdict t1).
    assert (forall oid,
              (correct_count oid (mkDB (<[j:=u']> (Users db))
                                   (<[i:=push_solver p rec]> (Problems db))) =
               correct_count oid db +
               if decide (_id u = oid /\ verdict = true) then 1 else 0)%nat)
      as Hcount.
    { intros oid. unfold correct_count. cbn [Problems].
      pose proof (sum_list_fmap_insert (correct_in oid) _ _ _
                    (push_solver p rec) Hi) as Hsum.
      rewrite correct_in_push in Hsum. simpl in Hsum. lia. }
    intros w [k Hk]%list_elem_of_lookup_1. cbn [Users] in Hk.
    rewrite Hcount. destruct (decide (k = j)) as [->|Hne].
    + rewrite list_lookup_insert_eq in Hk by (by eapply lookup_lt_Some).
      injection Hk as <-.
      assert (u ∈ Users db) as Hin by (by eapply list_elem_of_lookup_2).
      pose proof (Hscores u Hin) as Hu. subst u'.
      destruct verdict; simpl.
      * rewrite decide_True by done. lia.
      * rewrite decide_False by (by intros [_ ?]). lia.
    + rewrite list_lookup_insert_ne in Hk by done.
      assert (_id u <> _id w) as Hdiff.
      { intros Heq. apply Hne.
        eapply (NoDup_lookup _ _ _ _ Hnd); rewrite list_lookup_fmap.
        - by rewrite Hk.
        - rewrite Hj. simpl. by rewrite Heq. }
      rewrite decide_False by (by intros [? _]).
      rewrite Nat.add_0_r. apply Hscores. by eapply list_elem_of_lookup_2.
Qed.

Lemma reachable_consistent db :
  reachable db ->
  unique_keys db /\ one_record_per_user db /\ solvers_known db /\
  scores_counted db.
Proof.
  induction 1 as [|req db _ (Hkeys & Hone & Hknown & Hscores)].
  - split_and!.
    + split_and!; simpl; apply NoDup_nil_2.
    + apply Forall_nil_2.
    + intros p s Hp. by apply elem_of_nil in Hp.
    + intros u Hu. by apply elem_of_nil in Hu.
  - split_and!.
    + by apply handle_unique_keys.
    + by apply handle_one_record.
    + by apply handle_solvers_known.
    + apply handle_scores_counted; [apply Hkeys | done..].
Qed.

(** X14. In every database the service reaches, one request at a time,
    each solver record is that of a stored user: some user has the
    record's user id, and the name copied into the record is that user's
    name. *)
Theorem reachable_solvers_known db :
  reachable db ->
  forall p s, p ∈ Problems db -> s ∈ solvers p ->
    exists u, u ∈ Users db /\ _id u = solver_userId s /\ name u = solver_name s.
Proof. intros Hr. by apply reachable_consistent in Hr as (_ & _ & Hknown & _). Qed.

(** X15. Exactly-once scoring: in every database the service reaches, one
    request at a time, each user's score is the number of solver records
    that carry the user's id and say correct, over all quizzes; so it lies
    between 0 and the number of quizzes. *)
Theorem reachable_scores_counted db :
  reachable db ->
  forall u, u ∈ Users db ->
    score u = Z.of_nat (correct_count (_id u) db) /\
    0 <= score u <= Z.of_nat (length (Problems db)).
Proof.
  intros (Hkeys & Hone & Hknown & Hscores)%reachable_consistent u Hu.
  split; [by apply Hscores|]. rewrite (Hscores u Hu).
  assert (correct_count (_id u) db <= length (Problems db))%nat; [|lia].
  unfold correct_count. apply sum_list_fmap_le_length.
  eapply Forall_impl; [exact Hone|]. intros p Hp. by apply correct_in_le_1.
Qed.

(** *** Answers in decimal *)

Lemma digit_value_10_range c d :
  digit_value 10 c = Some d ->
  48 <= Z.of_N (N_of_ascii c) <= 57 /\ d = Z.of_N (N_of_ascii c) - 48.
Proof.
  unfold digit_value. set (n := Z.of_N (N_of_ascii c)).
  destruct ((48 <=? n) && (n <=? 57)) eqn:H09.
  - apply andb_true_iff in H09 as [?%Z.leb_le ?%Z.leb_le].
    destruct (n - 48 <? 10); [|done]. intros [= <-]. lia.
  - destruct ((97 <=? n) && (n <=? 122)) eqn:Haz.
    + apply andb_true_iff in Haz as [?%Z.leb_le ?%Z.leb_le].
      destruct (n - 87 <? 10) eqn:Hlt; [|done]. apply Z.ltb_lt in Hlt. lia.
    + destruct ((65 <=? n) && (n <=? 90)) eqn:HAZ; [|done].
      apply andb_true_iff in HAZ as [?%Z.leb_le ?%Z.leb_le].
      destruct (n - 55 <? 10) eqn:Hlt; [|done]. apply Z.ltb_lt in Hlt. lia.
Qed.

Lemma digit_value_pretty_N_char k :
  (k < 10)%N -> digit_value 10 (pretty_N_char k) = Some (Z.of_N k).
Proof.
  intros Hk.
  assert (k = 0 \/ k = 1 \/ k = 2 \/ k = 3 \/ k = 4 \/ k = 5 \/ k = 6 \/
          k = 7 \/ k = 8 \/ k = 9)%N as Hcases by lia.
  repeat (destruct Hcases as [-> | Hcases]; [reflexivity|]).
  by subst.
Qed.

Lemma parse_digits_pretty_N_go x s :
  (0 < x)%N ->
  parse_digits 10 (pretty_N_go x s) None = parse_digits 10 s (Some (Z.of_N x)).
Proof.
  revert s. induction (N.lt_wf_0 x) as [x _ IH]. intros s Hx.
  rewrite pretty_N_go_step by done.
  assert (x `mod` 10 < 10)%N as Hmod by (by apply N.mod_lt).
  pose proof (N.div_mod x 10) as Hdiv.
  destruct (decide (x `div` 10 = 0)%N) as [Hzero | Hpos].
  - rewrite Hzero, pretty_N_go_0. simpl.
    rewrite (digit_value_pretty_N_char _ Hmod). do 2 f_equal. lia.
  - rewrite IH; [|apply N.div_lt; lia|lia]. simpl.
    rewrite (digit_value_pretty_N_char _ Hmod). do 2 f_equal. lia.
Qed.

Lemma all_decimal_pretty_N_go x s :
  all_decimal (pretty_N_go x s) = all_decimal s.
Proof.
  revert s. induction (N.lt_wf_0 x) as [x _ IH]. intros s.
  destruct (decide (x = 0)%N) as [->|Hx]; [by rewrite pretty_N_go_0|].
  rewrite pretty_N_go_step by lia.
  rewrite IH by (apply N.div_lt; lia). simpl.
  rewrite digit_value_pretty_N_char; [done|]. by apply N.mod_lt.
Qed.

Lemma pretty_N_go_nonempty x s : (0 < x)%N -> pretty_N_go x s <> "".
Proof.
  revert s. induction (N.lt_wf_0 x) as [x _ IH]. intros s Hx.
  rewrite pretty_N_go_step by done.
  destruct (decide (x `div` 10 = 0)%N) as [Hzero | Hpos].
  - by rewrite Hzero, pretty_N_go_0.
  - apply IH; [apply N.div_lt; lia | by apply N.neq_0_lt_0].
Qed.

(** A string that starts with a decimal digit, not followed by [x] or
    [X], has no white space, sign or radix prefix for [parseInt] to take
    off. *)
Lemma digit_first_plain c s :
  is_Some (digit_value 10 c) ->
  (forall r, s <> String "x" r /\ s <> String "X" r) ->
  trim_start (String c s) = String c s /\
  strip_sign (String c s) = (1, String c s) /\
  strip_radix (String c s) = (10, String c s).
Proof.
  intros [dv Hc] Hx. apply digit_value_10_range in Hc as [Hc _].
  assert ((48 <=? Z.of_N (N_of_ascii c)) && (Z.of_N (N_of_ascii c) <=? 57)
          = true) as Hb by (apply andb_true_iff; split; apply Z.leb_le; lia).
  split_and!.
  - assert (is_white_space c = false) as Hws.
    { unfold is_white_space. destruct (_ || _) eqn:Hw; [|done].
      apply orb_true_iff in Hw
        as [[?%Z.leb_le ?%Z.leb_le]%andb_true_iff | ?%Z.eqb_eq]; lia. }
    assert (white_space_lead c = false) as Hlead.
    { unfold white_space_lead.
      repeat (apply orb_false_iff; split); apply Z.eqb_neq; lia. }
    simpl. by rewrite Hws, Hlead.
  - destruct c as [[] [] [] [] [] [] [] []]; try reflexivity;
      vm_compute in Hb; discriminate.
  - destruct s as [|c2 s];
      [destruct c as [[] [] [] [] [] [] [] []]; reflexivity|].
    destruct (Hx s) as [Hx1 Hx2].
    destruct c as [[] [] [] [] [] [] [] []]; try reflexivity.
    destruct c2 as [[] [] [] [] [] [] [] []]; try reflexivity; done.
Qed.

Lemma all_decimal_no_x s :
  all_decimal s = true -> forall r, s <> String "x" r /\ s <> String "X" r.
Proof. intros Hall r. split; intros ->; vm_compute in Hall; discriminate. Qed.

Lemma parse_digits_decimal_app s t acc :
  all_decimal s = true -> starts_with_digit 10 t = false ->
  parse_digits 10 (s +:+ t) acc = parse_digits 10 s acc.
Proof.
  revert acc. induction s as [|c s IH]; intros acc Hall Ht; simpl.
  - destruct t as [|c t]; [done|]. simpl in *.
    destruct (digit_value 10 c); [|done].
    apply bool_decide_eq_false in Ht. destruct Ht. by eexists.
  - simpl in Hall. destruct (digit_value 10 c); [|done]. by apply IH.
Qed.

(** [parseInt] of decimal digits [s], with any text [t] after them that
    does not go on with a digit (or with the [x] of a radix prefix). *)
Lemma parseInt_decimal_prefix s t m :
  s <> "" -> all_decimal s = true -> parse_digits 10 s None = Some m ->
  starts_with_digit 10 t = false ->
  (forall r, t <> String "x" r /\ t <> String "X" r) ->
  parseInt (JStr (s +:+ t)) = Int m /\
  parseInt (JStr ("-" +:+ s +:+ t)) = Int (- m).
Proof.
  intros Hne Hall Hparse Ht Hx. destruct s as [|c s]; [done|].
  assert (parse_digits 10 (String c s +:+ t) None = Some m) as Hparse'.
  { by rewrite parse_digits_decimal_app. }
  simpl in Hall. destruct (digit_value 10 c) as [dv|] eqn:Hc; [|done].
  destruct (digit_first_plain c (s +:+ t)) as (Htrim & Hsign & Hradix).
  { rewrite Hc. by eexists. }
  { destruct s as [|c2 s]; [exact Hx|]. simpl in Hall.
    destruct (digit_value 10 c2) eqn:Hc2; [|done].
    intros r. split; intros [= -> _]; vm_compute in Hc2; discriminate. }
  change (String c s +:+ t) with (String c (s +:+ t)) in *.
  split.
  - unfold parseInt. cbn [ToString]. rewrite Htrim, Hsign.
    cbv beta iota zeta. rewrite Hradix. cbv beta iota zeta. rewrite Hparse'.
    f_equal; lia.
  - unfold parseInt. cbn [ToString].
    change (strip_sign (trim_start ("-" +:+ String c (s +:+ t))))
      with (-1, String c (s +:+ t)).
    cbv beta iota zeta. rewrite Hradix. cbv beta iota zeta. rewrite Hparse'.
    f_equal; lia.
Qed.

Lemma append_empty_r s : s +:+ "" = s.
Proof.
  induction s as [|c s IH]; [done|].
  change (String c (s +:+ "") = String c s). by rewrite IH.
Qed.

(** [parseInt] reads back the decimal spelling of an integer, whatever
    text follows it. *)
Lemma parseInt_pretty_prefix z t :
  starts_with_digit 10 t = false ->
  (forall r, t <> String "x" r /\ t <> String "X" r) ->
  parseInt (JStr (pretty z +:+ t)) = Int z.
Proof.
  intros Ht Hx. destruct z as [|x|x].
  - change (pretty 0) with "0".
    by apply (parseInt_decimal_prefix "0" t 0).
  - change (pretty (Z.pos x)) with (pretty_N_go (N.pos x) "").
    apply parseInt_decimal_prefix; try done.
    + by apply pretty_N_go_nonempty.
    + by rewrite all_decimal_pretty_N_go.
    + by rewrite parse_digits_pretty_N_go.
  - change (pretty (Z.neg x)) with ("-" +:+ pretty_N_go (N.pos x) "").
    change (Z.neg x) with (- Z.pos x).
    change (("-" +:+ pretty_N_go (N.pos x) "") +:+ t)
      with ("-" +:+ pretty_N_go (N.pos x) "" +:+ t).
    apply parseInt_decimal_prefix; try done.
    + by apply pretty_N_go_nonempty.
    + by rewrite all_decimal_pretty_N_go.
    + by rewrite parse_digits_pretty_N_go.
Qed.

Lemma parseInt_pretty z : parseInt (JStr (pretty z)) = Int z.
Proof.
  rewrite <- (append_empty_r (pretty z)). by apply parseInt_pretty_prefix.
Qed.

(** X16. An integer submitted as a number or in decimal is read back as
    it is, so the attempt is judged correct exactly when it is the stored
    answer: the verdict, the appended record and the score follow the
    comparison [answer = z]. *)
Theorem solve_decimal_answer t1 t2 d vuserId vanswer z db i p j u :
  vanswer = JNum (Int z) \/ vanswer = JStr (pretty z) ->
  - 2 ^ 53 <= z <= 2 ^ 53 ->
  Problem_findOne d db = Some (i, p) ->
  User_findById vuserId db = Ok (Some (j, u)) ->
  _id u ∉ (solver_userId <$> solvers p) ->
  let verdict := answer p =? z in
  let db1 :=
    Problem_save i (push_solver p (mkSolver (_id u) (name u) verdict t1)) db in
  parseInt vanswer = Int z /\
  solve t1 t2 d vuserId vanswer db =
    if verdict then
      (mkResponse 200 (SolveJson true true (score u + 1)),
       User_save j (mkUser (_id u) (userId u) (name u) (password u) (isAdmin u)
                           (score u + 1) (Some t2)) db1)
    else (mkResponse 200 (SolveJson true false (score u)), db1).
Proof.
  intros Hform _ Hp Hu Hnew verdict db1. subst verdict db1.
  assert (parseInt vanswer = Int z) as Hparse.
  { destruct Hform as [-> | ->]; apply parseInt_pretty. }
  split; [done|].
  rewrite (solve_fresh t1 t2 d vuserId vanswer db i p j u Hp Hu Hnew).
  by rewrite Hparse.
Qed.

(** X17. Text after the number is ignored: a submission that spells an
    integer in decimal and goes on with anything but a digit (or the [x]
    of a radix prefix) is judged as that integer. *)
Theorem solve_ignores_text_after_number t1 t2 d vuserId z t db i p j u :
  starts_with_digit 10 t = false ->
  (forall r, t <> String "x" r /\ t <> String "X" r) ->
  - 2 ^ 53 <= z <= 2 ^ 53 ->
  Problem_findOne d db = Some (i, p) ->
  User_findById vuserId db = Ok (Some (j, u)) ->
  _id u ∉ (solver_userId <$> solvers p) ->
  parseInt (JStr (pretty z +:+ t)) = Int z /\
  solve t1 t2 d vuserId (JStr (pretty z +:+ t)) db =
    solve t1 t2 d vuserId (JNum (Int z)) db.
Proof.
  intros Ht Hx _ Hp Hu Hnew.
  pose proof (parseInt_pretty_prefix z t Ht Hx) as Hparse.
  split; [done|].
  rewrite !(solve_fresh t1 t2 d vuserId _ db i p j u Hp Hu Hnew).
  rewrite Hparse. change (parseInt (JNum (Int z))) with (parseInt (JStr (pretty z))).
  by rewrite parseInt_pretty.
Qed.

End Service.

(** ** The handlers at work on the small database *)

#[local] Existing Instance mongoose_default.

Example parseInt_7 : parseInt (JStr "7") = Int 7.
Proof. reflexivity. Qed.

Example parseInt_px : parseInt (JStr "  -42px") = Int (-42).
Proof. reflexivity. Qed.

Example parseInt_hex : parseInt (JStr "0x1F") = Int 31.
Proof. reflexivity. Qed.

Example parseInt_number : parseInt (JNum (Int 12)) = Int 12.
Proof. vm_compute. reflexivity. Qed.

Example parseInt_null : parseInt JNull = NaN.
Proof. reflexivity. Qed.

Example parseInt_no_break_space :
  parseInt (JStr (String (ascii_of_nat 194) (String (ascii_of_nat 160) "7")))
    = Int 7.
Proof. reflexivity. Qed.

Example parseInt_line_separator :
  parseInt (JStr (String (ascii_of_nat 226) (String (ascii_of_nat 128)
                   (String (ascii_of_nat 168) " -12")))) = Int (-12).
Proof. reflexivity. Qed.

Example parseInt_other_lead_byte :
  parseInt (JStr (String (ascii_of_nat 226) (String (ascii_of_nat 130)
                   (String (ascii_of_nat 172) "7")))) = NaN.
Proof. reflexivity. Qed.

Example db0_reachable : reachable Demo.db0.
Proof.
  change Demo.db0 with (Demo.run Demo.setup empty_db).
  cbv beta iota delta [Demo.run Demo.setup fold_left].
  do 3 apply reachable_step. apply reachable_empty.
Qed.

Lemma solve_correct_scores_witness :
  Problem_findOne "2025-01-01" Demo.db0 = Some (0%nat, Demo.quiz) /\
  User_findById (JStr Demo.alice_hex) Demo.db0 = Ok (Some (0%nat, Demo.alice)) /\
  parseInt (JStr "7") = Int (answer Demo.quiz) /\
  exists db',
    solve 1735700000000 1735700000001 "2025-01-01" (JStr Demo.alice_hex)
      (JStr "7") Demo.db0 = (mkResponse 200 (SolveJson true true 1), db') /\
    Problems db' !! 0%nat = Some Demo.quiz1 /\
    Users db' !! 0%nat = Some Demo.alice1.
Proof.
  split_and!; [reflexivity..|].
  destruct (solve_correct_scores 1735700000000 1735700000001 "2025-01-01"
              (JStr Demo.alice_hex) (JStr "7") Demo.db0 0 Demo.quiz 0 Demo.alice)
    as (db' & Hs & Hp & _ & Hu & _);
    [reflexivity | reflexivity | apply not_elem_of_nil | reflexivity |].
  exists db'. split_and!; [exact Hs | exact Hp | exact Hu].
Defined.

Lemma solve_once_per_user_witness :
  solve 1735800000000 1735800000001 "2025-01-01" (JStr Demo.alice_hex)
    (JStr "7") Demo.db1 = (send 400 "이미 이 퀴즈를 풀었습니다.", Demo.db1) /\
  one_record_per_user Demo.db0 /\
  one_record_per_user Demo.db1.
Proof.
  destruct solve_once_per_user as (Hguard & Hstep & Hreach).
  split_and!.
  - apply (Hguard _ _ _ _ _ _ 0%nat Demo.quiz1 0%nat Demo.alice1);
      [reflexivity | reflexivity |].
    simpl. apply elem_of_cons. left. reflexivity.
  - apply Hreach, db0_reachable.
  - change Demo.db1 with (snd (handle Demo.alice_solves Demo.db0)).
    apply Hstep, Hreach, db0_reachable.
Defined.

Lemma solve_wrong_answer_frame_witness :
  Problem_findOne "2025-01-01" Demo.db0 = Some (0%nat, Demo.quiz) /\
  User_findById (JStr Demo.alice_hex) Demo.db0 = Ok (Some (0%nat, Demo.alice)) /\
  parseInt (JStr "3") <> Int (answer Demo.quiz) /\
  exists db',
    solve 1735700000000 1735700000001 "2025-01-01" (JStr Demo.alice_hex)
      (JStr "3") Demo.db0 = (mkResponse 200 (SolveJson true false 0), db') /\
    Users db' = Users Demo.db0 /\
    Problems db' !! 0%nat =
      Some (mkProblem "2025-01-01" "3 + 4 = ?" 7
              [mkSolver Demo.alice_id "alice" false 1735700000000]).
Proof.
  split_and!; [reflexivity | reflexivity | discriminate |].
  destruct (solve_wrong_answer_frame 1735700000000 1735700000001 "2025-01-01"
              (JStr Demo.alice_hex) (JStr "3") Demo.db0 0 Demo.quiz 0 Demo.alice)
    as (db' & Hs & Hus & _ & Hp & _);
    [reflexivity | reflexivity | apply not_elem_of_nil | discriminate |].
  exists db'. split_and!; [exact Hs | exact Hus | exact Hp].
Defined.

(** C4 (counterexample). No quiz is stored under 2025-01-02, yet a solve
    for that date with the user id "abc" is not answered with 404: the
    lookup of the user throws first and the answer is 500. *)
Lemma solve_absent_quiz_malformed_id :
  Problem_findOne "2025-01-02" Demo.db0 = None /\
  fst (solve 1735700000000 1735700000001 "2025-01-02" (JStr "abc") (JStr "7")
         Demo.db0) = send 500 "Cast failed at path _id" /\
  status (fst (solve 1735700000000 1735700000001 "2025-01-02" (JStr "abc")
                 (JStr "7") Demo.db0)) <> 404.
Proof. split_and!; [reflexivity | reflexivity | discriminate]. Qed.

Lemma solve_not_found_witness :
  castObjectId (JStr Demo.bob_hex) <> CastFail /\
  User_findById (JStr Demo.bob_hex) Demo.db0 = Ok None /\
  solve 1735700000000 1735700000001 "2025-01-01" (JStr Demo.bob_hex) (JStr "7")
    Demo.db0 = (send 404 "퀴즈 또는 사용자를 찾을 수 없습니다.", Demo.db0) /\
  solve 1735700000000 1735700000001 "2025-01-02" (JStr Demo.alice_hex) (JStr "7")
    Demo.db0 = (send 404 "퀴즈 또는 사용자를 찾을 수 없습니다.", Demo.db0).
Proof.
  split_and!; [discriminate | reflexivity | |].
  - apply solve_not_found; [discriminate | right; reflexivity].
  - apply solve_not_found; [discriminate | left; reflexivity].
Defined.

(** C6 (counterexample). A quiz is stored under 2025-01-01, yet a second
    create for that date that leaves the question out is not answered with
    the conflict error: the presence check answers 400 first. *)
Lemma create_problem_duplicate_date_not_conflict :
  Problem_findOne "2025-01-01" Demo.db0 = Some (0%nat, Demo.quiz) /\
  create_problem (JStr "2025-01-01") JUndefined (JNum (Int 4)) Demo.db0 =
    (send 400 "모든 필드를 입력해야 합니다.", Demo.db0) /\
  status (fst (create_problem (JStr "2025-01-01") JUndefined (JNum (Int 4))
                 Demo.db0)) <> 409.
Proof. split_and!; [reflexivity | reflexivity | discriminate]. Qed.

Lemma create_problem_duplicate_date_witness :
  Problem_findOne "2025-01-01" Demo.db0 = Some (0%nat, Demo.quiz) /\
  Problem_validate (JStr "2025-01-01") (JStr "2 + 2 = ?") (JNum (Int 4)) =
    Ok (mkProblem "2025-01-01" "2 + 2 = ?" 4 []) /\
  create_problem (JStr "2025-01-01") (JStr "2 + 2 = ?") (JNum (Int 4)) Demo.db0 =
    (send 409 "이미 해당 날짜의 퀴즈가 존재합니다.", Demo.db0) /\
  Problem_findOne "2025-01-01"
    (snd (create_problem (JStr "2025-01-01") (JStr "2 + 2 = ?") (JNum (Int 4))
            Demo.db0)) = Some (0%nat, Demo.quiz).
Proof.
  split_and!; [reflexivity | reflexivity | |].
  - destruct (create_problem_duplicate_date (JStr "2025-01-01")
                (JStr "2 + 2 = ?") (JNum (Int 4)) Demo.db0 "2025-01-01"
                0%nat Demo.quiz) as (_ & _ & _ & Hconflict);
      [reflexivity | reflexivity |].
    apply Hconflict; [reflexivity..|]. eexists. reflexivity.
  - destruct (create_problem_duplicate_date (JStr "2025-01-01")
                (JStr "2 + 2 = ?") (JNum (Int 4)) Demo.db0 "2025-01-01"
                0%nat Demo.quiz) as (_ & Hfound & _);
      [reflexivity | reflexivity |].
    exact Hfound.
Defined.

Lemma login_twice_same_user_witness :
  login 1735689600000 Demo.alice_id (JStr "alice") JUndefined empty_db =
    (mkResponse 200 (UserJson Demo.alice), mkDB [Demo.alice] []) /\
  exists u2,
    login 1735689700000 Demo.bob_id (JStr "alice") (JBool true)
      (mkDB [Demo.alice] []) =
      (mkResponse 200 (UserJson u2), mkDB [Demo.alice] []) /\
    _id u2 = Demo.alice_id /\ score u2 = 0.
Proof.
  split; [vm_compute; reflexivity|].
  destruct (login_twice_same_user 1735689600000 Demo.alice_id JUndefined
              1735689700000 Demo.bob_id (JBool true) (JStr "alice") empty_db
              Demo.alice (mkDB [Demo.alice] []))
    as (u2 & Hs & Hid & Hscore & _); [vm_compute; reflexivity|].
  exists u2. split_and!; [exact Hs | exact Hid | exact Hscore].
Defined.

Lemma leaderboard_non_admins_sorted_witness :
  list_leaderboard Demo.board =
    [without_password Demo.erin; Demo.dave; Demo.carol; Demo.frank] /\
  score Demo.carol <= score Demo.dave /\
  date_asc (latestQuizDate Demo.dave) (latestQuizDate Demo.carol).
Proof.
  split; [vm_compute; reflexivity|].
  destruct (leaderboard_non_admins_sorted Demo.board) as (_ & _ & _ & _ & Hpairs).
  destruct (Hpairs 1%nat 2%nat Demo.dave Demo.carol) as [Hscore Hdate];
    [lia | vm_compute; reflexivity | vm_compute; reflexivity |].
  split; [exact Hscore | apply Hdate; reflexivity].
Defined.

(** C9 (counterexample). The submission "7 apples" is not numeric, yet
    [parseInt] reads 7 from it and Alice is judged correct on the quiz whose
    answer is 7. *)
Lemma solve_non_numeric_judged_correct :
  numeric_submission (JStr "7 apples") = false /\
  parseInt (JStr "7 apples") = Int 7 /\
  fst (solve 1735700000000 1735700000001 "2025-01-01" (JStr Demo.alice_hex)
         (JStr "7 apples") Demo.db0) = mkResponse 200 (SolveJson true true 1).
Proof. split_and!; vm_compute; reflexivity. Qed.

Example numeric_submission_examples :
  numeric_submission (JStr "7") = true /\
  numeric_submission (JStr " -7.50") = true /\
  numeric_submission (JNum (Int 7)) = true /\
  numeric_submission (JStr "seven") = false /\
  numeric_submission (JStr "") = false.
Proof. split_and!; reflexivity. Qed.

Lemma solve_unparsable_incorrect_witness :
  has_leading_integer (JStr "abc") = false /\
  parseInt (JStr "abc") = NaN /\
  solve 1735700000000 1735700000001 "2025-01-01" (JStr Demo.alice_hex)
    (JStr "abc") Demo.db0 =
    (mkResponse 200 (SolveJson true false 0),
     mkDB (Users Demo.db0)
          [mkProblem "2025-01-01" "3 + 4 = ?" 7
             [mkSolver Demo.alice_id "alice" false 1735700000000]]).
Proof.
  split; [reflexivity|].
  destruct (solve_unparsable_incorrect 1735700000000 1735700000001 "2025-01-01"
              (JStr Demo.alice_hex) (JStr "abc") Demo.db0 0 Demo.quiz 0 Demo.alice)
    as (Hnan & _ & Hs);
    [reflexivity | reflexivity | apply not_elem_of_nil | reflexivity |].
  split; [exact Hnan | exact Hs].
Defined.



(** *** The wider properties on the small database *)

Example db1_reachable : reachable Demo.db1.
Proof.
  change Demo.db1 with (snd (handle Demo.alice_solves Demo.db0)).
  apply reachable_step, db0_reachable.
Qed.

Lemma admin_auth_checks_credentials_witness :
  castString (JStr "1234aa") = CastOk "1234aa" /\
  castString (JStr "wj211@") = CastOk "wj211@" /\
  admin_auth (JStr "1234aa") (JStr "wj211@") Demo.db0 =
    (mkResponse 200
       (UserJson (mkUser Demo.admin_id "1234aa" "관리자" None true 0 None)),
     Demo.db0) /\
  (status (fst (admin_auth (JStr "1234aa") (JStr "wj211@") Demo.db0)) = 200 \/
   status (fst (admin_auth (JStr "1234aa") (JStr "wj211@") Demo.db0)) = 401).
Proof.
  split_and!; [reflexivity | reflexivity | vm_compute; reflexivity |].
  destruct (admin_auth_checks_credentials (JStr "1234aa") (JStr "wj211@")
              Demo.db0 "1234aa" "wj211@")
    as [(u & _ & _ & _ & _ & ->) | [_ ->]]; [reflexivity | reflexivity | |].
  - left. reflexivity.
  - right. reflexivity.
Defined.

Lemma seeded_admin_authenticates_witness :
  let admin :=
    mkUser Demo.admin_id "1234aa" "관리자" (Some "wj211@") true 0 None in
  let db' := mkDB [Demo.alice; admin] [] in
  login 1735689600001 Demo.admin_id (JStr "관리자") (JBool true)
    (mkDB [Demo.alice] []) =
    (mkResponse 200 (UserJson (without_password admin)), db') /\
  admin_auth (JStr "1234aa") (JStr "wj211@") db' =
    (mkResponse 200 (UserJson (without_password admin)), db').
Proof.
  apply (seeded_admin_authenticates 1735689600001 Demo.admin_id (JBool true)
           (mkDB [Demo.alice] [])).
  - intros s. reflexivity.
  - reflexivity.
  - apply not_elem_of_cons. split; [discriminate | apply not_elem_of_nil].
  - apply not_elem_of_cons. split; [discriminate | apply not_elem_of_nil].
  - apply not_elem_of_cons. split; [discriminate | apply not_elem_of_nil].
Defined.

Lemma create_problem_then_find_witness :
  let q := mkProblem "2025-01-02" "9 - 4 = ?" 5 [] in
  Problem_validate (JStr "2025-01-02") (JStr "9 - 4 = ?") (JNum (Int 5)) = Ok q /\
  Problem_findOne "2025-01-02" Demo.db0 = None /\
  create_problem (JStr "2025-01-02") (JStr "9 - 4 = ?") (JNum (Int 5)) Demo.db0 =
    (mkResponse 201 (ProblemJson q),
     mkDB (Users Demo.db0) [Demo.quiz; q]) /\
  Problem_findOne "2025-01-02" (mkDB (Users Demo.db0) [Demo.quiz; q]) =
    Some (1%nat, q).
Proof.
  intros q. split_and!; [reflexivity | reflexivity | |].
  - destruct (create_problem_then_find (JStr "2025-01-02") (JStr "9 - 4 = ?")
                (JNum (Int 5)) Demo.db0 q) as (Hc & _);
      [reflexivity..|]. exact Hc.
  - destruct (create_problem_then_find (JStr "2025-01-02") (JStr "9 - 4 = ?")
                (JNum (Int 5)) Demo.db0 q) as (_ & _ & Hf & _);
      [reflexivity..|]. exact Hf.
Defined.

Lemma create_problem_invalid_is_500_witness :
  castNumber (JStr "seven") = CastFail /\
  create_problem (JStr "2025-01-02") (JStr "3 + 4 = ?") (JStr "seven") Demo.db0 =
    (send 500 "Problem validation failed", Demo.db0).
Proof.
  split; [reflexivity|].
  rewrite (create_problem_invalid_is_500 (JStr "2025-01-02") (JStr "3 + 4 = ?")
             (JStr "seven") Demo.db0); [reflexivity | reflexivity..|].
  right. right. intros a Hcast. vm_compute in Hcast. discriminate.
Defined.

Lemma solve_second_attempt_rejected_witness :
  fst (solve 1735700000000 1735700000001 "2025-01-01" (JStr Demo.alice_hex)
         (JStr "3") Demo.db0) = mkResponse 200 (SolveJson true false 0) /\
  fst (solve 1735800000000 1735800000001 "2025-01-01" (JStr Demo.alice_hex)
         (JStr "7")
         (snd (solve 1735700000000 1735700000001 "2025-01-01"
                 (JStr Demo.alice_hex) (JStr "3") Demo.db0))) =
    send 400 "이미 이 퀴즈를 풀었습니다.".
Proof.
  split; [vm_compute; reflexivity|].
  rewrite (solve_second_attempt_rejected 1735700000000 1735700000001
             1735800000000 1735800000001 "2025-01-01" (JStr Demo.alice_hex)
             (JStr "3") (JStr "7") Demo.db0); [reflexivity|].
  vm_compute. reflexivity.
Defined.

Lemma reachable_solvers_known_witness :
  exists u,
    u ∈ Users Demo.db1 /\ _id u = Demo.alice_id /\ name u = "alice".
Proof.
  apply (reachable_solvers_known Demo.db1 db1_reachable Demo.quiz1
           (mkSolver Demo.alice_id "alice" true 1735700000000)).
  - apply list_elem_of_here.
  - apply list_elem_of_here.
Defined.

Lemma reachable_scores_counted_witness :
  correct_count Demo.alice_id Demo.db1 = 1%nat /\
  score Demo.alice1 = Z.of_nat (correct_count Demo.alice_id Demo.db1) /\
  0 <= score Demo.alice1 <= 1.
Proof.
  split; [vm_compute; reflexivity|].
  apply (reachable_scores_counted Demo.db1 db1_reachable Demo.alice1).
  apply list_elem_of_here.
Defined.

Lemma solve_decimal_answer_witness :
  parseInt (JNum (Int 7)) = Int 7 /\
  solve 1735700000000 1735700000001 "2025-01-01" (JStr Demo.alice_hex)
    (JNum (Int 7)) Demo.db0 =
    (mkResponse 200 (SolveJson true true 1), Demo.db1).
Proof.
  destruct (solve_decimal_answer 1735700000000 1735700000001 "2025-01-01"
              (JStr Demo.alice_hex) (JNum (Int 7)) 7 Demo.db0 0 Demo.quiz
              0 Demo.alice) as [Hparse Hsolve];
    [by left | lia | reflexivity | reflexivity | apply not_elem_of_nil |].
  split; [exact Hparse|]. rewrite Hsolve. reflexivity.
Defined.

Lemma solve_ignores_text_after_number_witness :
  parseInt (JStr "7 apples") = Int 7 /\
  solve 1735700000000 1735700000001 "2025-01-01" (JStr Demo.alice_hex)
    (JStr "7 apples") Demo.db0 =
  solve 1735700000000 1735700000001 "2025-01-01" (JStr Demo.alice_hex)
    (JNum (Int 7)) Demo.db0.
Proof.
  apply (solve_ignores_text_after_number 1735700000000 1735700000001
           "2025-01-01" (JStr Demo.alice_hex) 7 " apples" Demo.db0 0 Demo.quiz
           0 Demo.alice);
    [reflexivity | by intros r | lia | reflexivity | reflexivity
    | apply not_elem_of_nil].
Defined.
